(** * Time-weighted average sensor: a Rocq model of [sensor.py]

    The development embeds the aggregation core of the [tw_average]
    integration ([TwAverageSensor] in [sensor.py], constants of
    [const.py]) and checks the statements of the specification
    against it.

    - Python [float] is IEEE 754 binary64; it is modelled by the
      standard library's [spec_float] with [prec = 53], [emax = 1024].
    - A Python [str] is modelled by the bytes of its UTF-8 encoding.
    - An instance of [TwAverageSensor] is a record; a method is a
      function from the record to an outcome and the mutated record
      (an exception keeps the mutations done before it was raised).
    - [self.states] is an insertion-ordered dictionary, modelled by an
      association list; [_attr_extra_state_attributes] is a [gmap].
    - [datetime] values are counted in microseconds, the resolution of
      the type.  The lock is not modelled: calls run one at a time. *)

From Stdlib Require Import ZArith Ascii String DecimalString List Bool Lia.
From Stdlib.Floats Require Import SpecFloat.
From stdpp Require Import base option list strings gmap.

(** ** Exceptions

    The exceptions the modelled code can raise, and the outcome of an
    expression that either yields a value or raises. *)

Inductive exn : Type :=
  | NameError | ZeroDivisionError | IndexError | KeyError
  | OverflowError | ValueError | TypeError.

Inductive outcome (A : Type) : Type :=
  | Ret (a : A)
  | Raise (e : exn).
Arguments Ret {A} a.
Arguments Raise {A} e.

(** ** Python floats *)

Module PyFloat.

Local Open Scope Z_scope.

Definition prec : Z := 53.
Definition emax : Z := 1024.

Abbreviation float := spec_float (only parsing).

Definition fzero : float := S754_zero false.
Definition fadd : float -> float -> float := SFadd prec emax.
Definition fmul : float -> float -> float := SFmul prec emax.
Definition flt (x y : float) : bool := SFltb x y.
Definition fgt (x y : float) : bool :=
  match SFcompare x y with Some Gt => true | _ => false end.
Definition feqb (x y : float) : bool := SFeqb x y.

Definition is_zero (x : float) : bool :=
  match x with S754_zero _ => true | _ => false end.

Definition is_finite (x : float) : bool :=
  match x with S754_zero _ | S754_finite _ _ _ => true | _ => false end.

(** The float nearest to the rational [n / d] (ties to even), [d > 0]. *)
Definition of_ratio (n : Z) (d : positive) : float :=
  match n with
  | Z0 => S754_zero false
  | Zpos p => SFdiv prec emax (S754_finite false p 0) (S754_finite false d 0)
  | Zneg p => SFdiv prec emax (S754_finite true p 0) (S754_finite false d 0)
  end.

(** Conversion of an [int] operand in mixed arithmetic. *)
Definition of_int (n : Z) : float := binary_normalize prec emax n 0 false.

(** [timedelta.total_seconds()], the duration being in microseconds. *)
Definition total_seconds (us : Z) : float := of_ratio us 1000000.

(** [x / y] on floats: Python raises where IEEE returns an infinity or
    a NaN for a zero divisor. *)
Definition fdiv : float -> float -> float := SFdiv prec emax.

Definition truediv (x y : float) : outcome float :=
  if is_zero y then Raise ZeroDivisionError else Ret (fdiv x y).

(** [int(x)]: truncation towards zero. *)
Definition trunc (x : float) : outcome Z :=
  match x with
  | S754_zero _ => Ret 0
  | S754_finite s m e =>
      let a := if 0 <=? e then Zpos m * 2 ^ e else Zpos m / 2 ^ (- e) in
      Ret (if s then - a else a)
  | S754_infinity _ => Raise OverflowError
  | S754_nan => Raise ValueError
  end.

(** The integer nearest to [n / d], ties to even ([n >= 0], [d > 0]). *)
Definition div_half_even (n d : Z) : Z :=
  let q := n / d in
  let r := n mod d in
  match 2 * r ?= d with
  | Lt => q
  | Gt => q + 1
  | Eq => if Z.even q then q else q + 1
  end.

(** [round(x, ndigits)] for [ndigits >= 0]: the exact value of [x] is
    rounded half-even to [ndigits] decimals, and the decimal obtained is
    converted back to the nearest float. *)
Definition round (x : float) (ndigits : Z) : float :=
  match x with
  | S754_finite s m e =>
      if 323 <? ndigits then x else
      let k := if 0 <=? e then Zpos m * 2 ^ e * 10 ^ ndigits
               else div_half_even (Zpos m * 10 ^ ndigits) (2 ^ (- e)) in
      match k with
      | Zpos p => SFdiv prec emax (S754_finite s p 0)
                    (S754_finite false (Z.to_pos (10 ^ ndigits)) 0)
      | _ => S754_zero s
      end
  | _ => x
  end.

(** *** [float(s)] on a string

    A [str] is held as its UTF-8 encoding, which is what the string
    literals of this file are.  [float] first brings the string to
    ASCII ([_PyUnicode_TransformDecimalAndSpaceToASCII]) and then reads
    the grammar of the language reference: surrounding white space, a
    sign, then [inf], [infinity], [nan] (in any case) or a decimal
    number with an optional fraction and exponent, digits possibly
    grouped by single underscores.  [None] stands for [ValueError]. *)

Definition byte (c : ascii) : Z := Z.of_nat (nat_of_ascii c).

(** [Py_ISSPACE], the white space the parser strips: tab, line feed,
    vertical tab, form feed, carriage return and the blank. *)
Definition is_space (c : ascii) : bool :=
  let n := Z.of_nat (nat_of_ascii c) in
  ((9 <=? n) && (n <=? 13)) || (n =? 32).

(** [Py_UNICODE_ISSPACE] on the code points above ASCII. *)
Definition unicode_space (cp : Z) : bool :=
  (cp =? 0x85) || (cp =? 0xA0) || (cp =? 0x1680)
  || ((0x2000 <=? cp) && (cp <=? 0x200A))
  || (cp =? 0x2028) || (cp =? 0x2029) || (cp =? 0x202F)
  || (cp =? 0x205F) || (cp =? 0x3000).

(** The digit zero of every run of ten decimal digits above ASCII
    (general category Nd of Unicode 14.0, the tables of CPython 3.11):
    Arabic-Indic, Devanagari, ..., fullwidth, mathematical. *)
Definition decimal_zeros : list Z :=
  [ 0x660; 0x6F0; 0x7C0; 0x966; 0x9E6; 0xA66; 0xAE6; 0xB66; 0xBE6; 0xC66;
    0xCE6; 0xD66; 0xDE6; 0xE50; 0xED0; 0xF20; 0x1040; 0x1090; 0x17E0;
    0x1810; 0x1946; 0x19D0; 0x1A80; 0x1A90; 0x1B50; 0x1BB0; 0x1C40;
    0x1C50; 0xA620; 0xA8D0; 0xA900; 0xA9D0; 0xA9F0; 0xAA50; 0xABF0;
    0xFF10; 0x104A0; 0x10D30; 0x11066; 0x110F0; 0x11136; 0x111D0;
    0x112F0; 0x11450; 0x114D0; 0x11650; 0x116C0; 0x11730; 0x118E0;
    0x11950; 0x11C50; 0x11D50; 0x11DA0; 0x16A60; 0x16AC0; 0x16B50;
    0x1D7CE; 0x1D7D8; 0x1D7E2; 0x1D7EC; 0x1D7F6; 0x1E140; 0x1E2F0;
    0x1E950; 0x1FBF0 ].

(** [Py_UNICODE_TODECIMAL] on the code points above ASCII. *)
Definition to_decimal (cp : Z) : option Z :=
  match List.find (fun z => (z <=? cp) && (cp <? z + 10)) decimal_zeros with
  | Some z => Some (cp - z)
  | None => None
  end.

(** The payload of a continuation byte [10xxxxxx]. *)
Definition continuation (c : ascii) : option Z :=
  if (0x80 <=? byte c) && (byte c <=? 0xBF) then Some (byte c - 0x80) else None.

(** The code point encoded by two, three and four bytes: in shortest
    form, no surrogate, at most U+10FFFF. *)
Definition utf8_2 (b0 b1 : ascii) : option Z :=
  match continuation b1 with
  | Some c1 =>
      let cp := (byte b0 - 0xC0) * 0x40 + c1 in
      if (0xC0 <=? byte b0) && (0x80 <=? cp) then Some cp else None
  | None => None
  end.

Definition utf8_3 (b0 b1 b2 : ascii) : option Z :=
  match continuation b1, continuation b2 with
  | Some c1, Some c2 =>
      let cp := ((byte b0 - 0xE0) * 0x40 + c1) * 0x40 + c2 in
      if (0x800 <=? cp) && negb ((0xD800 <=? cp) && (cp <=? 0xDFFF))
      then Some cp else None
  | _, _ => None
  end.

Definition utf8_4 (b0 b1 b2 b3 : ascii) : option Z :=
  match continuation b1, continuation b2, continuation b3 with
  | Some c1, Some c2, Some c3 =>
      let cp := (((byte b0 - 0xF0) * 0x40 + c1) * 0x40 + c2) * 0x40 + c3 in
      if (byte b0 <=? 0xF4) && (0x10000 <=? cp) && (cp <=? 0x10FFFF)
      then Some cp else None
  | _, _, _ => None
  end.

(** What the transformation writes for one code point: itself below
    127, a blank for white space, the ASCII digit for a decimal digit;
    nothing for any other character. *)
Definition to_ascii (cp : Z) : option ascii :=
  if cp <? 127 then Some (ascii_of_nat (Z.to_nat cp))
  else if unicode_space cp then Some " "%char
  else match to_decimal cp with
       | Some d => Some (ascii_of_nat (Z.to_nat (48 + d)))
       | None => None
       end.

(** The first character that has no ASCII counterpart is written as
    ["?"] and ends the result.  Bytes that encode no code point (no
    [str] has them) are treated as such a character. *)
Definition emit (cp : option Z) (rest : list ascii) : list ascii :=
  match cp ≫= to_ascii with
  | Some c => c :: rest
  | None => ["?"%char]
  end.

Fixpoint transform_loop (l : list ascii) : list ascii :=
  match l with
  | [] => []
  | b0 :: r0 =>
      if byte b0 <? 0x80 then emit (Some (byte b0)) (transform_loop r0)
      else if byte b0 <? 0xE0 then
        match r0 with
        | b1 :: r1 => emit (utf8_2 b0 b1) (transform_loop r1)
        | _ => ["?"%char]
        end
      else if byte b0 <? 0xF0 then
        match r0 with
        | b1 :: b2 :: r2 => emit (utf8_3 b0 b1 b2) (transform_loop r2)
        | _ => ["?"%char]
        end
      else
        match r0 with
        | b1 :: b2 :: b3 :: r3 => emit (utf8_4 b0 b1 b2 b3) (transform_loop r3)
        | _ => ["?"%char]
        end
  end.

(** [_PyUnicode_TransformDecimalAndSpaceToASCII]: an ASCII string is
    returned as it is. *)
Definition transform (l : list ascii) : list ascii :=
  if forallb (fun c => byte c <? 0x80) l then l else transform_loop l.

Definition digit_of (c : ascii) : option Z :=
  let n := Z.of_nat (nat_of_ascii c) in
  if (48 <=? n) && (n <=? 57) then Some (n - 48) else None.

Definition lower (c : ascii) : ascii :=
  let n := nat_of_ascii c in
  if (65 <=? Z.of_nat n) && (Z.of_nat n <=? 90)
  then ascii_of_nat (n + 32) else c.

Fixpoint lstrip (l : list ascii) : list ascii :=
  match l with
  | c :: r => if is_space c then lstrip r else l
  | [] => []
  end.

Definition strip (l : list ascii) : list ascii :=
  rev (lstrip (rev (lstrip l))).

(** [digit (["_"] digit)*], after the first digit: the digits read so
    far are in [acc], most significant first. *)
Fixpoint digits_tail (l : list ascii) (acc : list Z) : list Z * list ascii :=
  match l with
  | c :: r =>
      match digit_of c with
      | Some d => digits_tail r (acc ++ [d])
      | None =>
          match r with
          | c' :: r' =>
              match digit_of c' with
              | Some d =>
                  if Ascii.eqb c "_" then digits_tail r' (acc ++ [d])
                  else (acc, l)
              | None => (acc, l)
              end
          | [] => (acc, l)
          end
      end
  | [] => (acc, [])
  end.

Definition digitpart (l : list ascii) : option (list Z * list ascii) :=
  match l with
  | c :: r =>
      match digit_of c with
      | Some d => Some (digits_tail r [d])
      | None => None
      end
  | [] => None
  end.

Definition Z_of_digits (ds : list Z) : Z :=
  fold_left (fun a d => 10 * a + d) ds 0.

(** [number]: the digits of the integer part and of the fraction. *)
Definition number (l : list ascii) : option (list Z * list Z * list ascii) :=
  match digitpart l with
  | Some (ip, r) =>
      match r with
      | c :: r' =>
          if Ascii.eqb c "."
          then match digitpart r' with
               | Some (fp, r'') => Some (ip, fp, r'')
               | None => Some (ip, [], r')
               end
          else Some (ip, [], r)
      | [] => Some (ip, [], [])
      end
  | None =>
      match l with
      | c :: r' =>
          if Ascii.eqb c "."
          then match digitpart r' with
               | Some (fp, r'') => Some ([], fp, r'')
               | None => None
               end
          else None
      | [] => None
      end
  end.

Definition sign (l : list ascii) : bool * list ascii :=
  match l with
  | c :: r => if Ascii.eqb c "-" then (true, r)
              else if Ascii.eqb c "+" then (false, r) else (false, l)
  | [] => (false, [])
  end.

(** [exponent]: [Some 0] when there is none, [None] when it is begun
    and not well formed. *)
Definition exponent (l : list ascii) : option (Z * list ascii) :=
  match l with
  | c :: r =>
      if Ascii.eqb (lower c) "e"
      then let '(s, r') := sign r in
           match digitpart r' with
           | Some (ds, r'') =>
               Some (if s then - Z_of_digits ds else Z_of_digits ds, r'')
           | None => None
           end
      else Some (0, l)
  | [] => Some (0, [])
  end.

(** The float nearest to [m * 10 ^ e], with sign [s]. *)
Definition of_decimal (s : bool) (m e : Z) : float :=
  match m with
  | Zpos _ =>
      if 0 <=? e
      then binary_normalize prec emax (if s then - (m * 10 ^ e) else m * 10 ^ e) 0 s
      else match of_ratio (if s then - m else m) (Z.to_pos (10 ^ (- e))) with
           | S754_zero _ => S754_zero s
           | x => x
           end
  | _ => S754_zero s
  end.

Definition of_string (str : string) : option float :=
  let '(s, l) := sign (strip (transform (list_ascii_of_string str))) in
  let word := string_of_list_ascii (map lower l) in
  if (String.eqb word "inf" || String.eqb word "infinity")%bool
  then Some (S754_infinity s)
  else if String.eqb word "nan" then Some S754_nan
  else
    match number l with
    | Some (ip, fp, r) =>
        match exponent r with
        | Some (e, []) =>
            Some (of_decimal s (Z_of_digits (ip ++ fp))
                    (e - Z.of_nat (List.length fp)))
        | _ => None
        end
    | None => None
    end.

(** *** [repr(x)], which is also [str(x)]

    The shortest string of decimal digits that converts back to [x],
    the nearest to [x] among those of that length, laid out in fixed
    notation, or with an exponent when the decimal point falls outside
    the digits by more than the format ['r'] allows. *)

Definition digits_of_Z (n : Z) : list ascii :=
  list_ascii_of_string (NilZero.string_of_uint (N.to_uint (Z.to_N n))).

Definition ndigits10 (n : Z) : Z := Z.of_nat (List.length (digits_of_Z n)).

(** Position of the decimal point of [num / den > 0]: the [p] with
    [10 ^ (p - 1) <= num / den < 10 ^ p]. *)
Definition decpt_of (num den : Z) : Z :=
  if den <=? num then ndigits10 (num / den) else 1 - ndigits10 (den / num).

(** The [k]-digit candidates around [num / den], and the one to print
    if one of them converts back to [x]. *)
Definition candidate (x : float) (num den p k : Z) : option (Z * Z) :=
  let sn := if p <=? k then num * 10 ^ (k - p) else num in
  let sd := if p <=? k then den else den * 10 ^ (p - k) in
  let lo := sn / sd in
  let hi := lo + 1 in
  let back c := SFeqb (of_decimal false c (p - k)) x in
  match back lo, back hi with
  | true, true =>
      match 2 * (sn mod sd) ?= sd with
      | Lt => Some (lo, p - k)
      | Gt => Some (hi, p - k)
      | Eq => Some (if Z.even lo then lo else hi, p - k)
      end
  | true, false => Some (lo, p - k)
  | false, true => Some (hi, p - k)
  | false, false => None
  end.

Fixpoint shortest (x : float) (num den p : Z) (ks : list Z) : option (Z * Z) :=
  match ks with
  | k :: ks' =>
      match candidate x num den p k with
      | Some c => Some c
      | None => shortest x num den p ks'
      end
  | [] => None
  end.

Fixpoint drop_zeros (l : list ascii) : list ascii :=
  match l with
  | c :: r => if Ascii.eqb c "0" then drop_zeros r else l
  | [] => []
  end.

Definition zeros (n : Z) : list ascii := repeat "0"%char (Z.to_nat n).

Definition layout (ds : list ascii) (p : Z) : list ascii :=
  let n := Z.of_nat (List.length ds) in
  if (p <=? -4) || (16 <? p) then
    let e := p - 1 in
    let es := digits_of_Z (Z.abs e) in
    firstn 1 ds
      ++ match skipn 1 ds with [] => [] | r => "."%char :: r end
      ++ ["e"%char; if e <? 0 then "-"%char else "+"%char]
      ++ zeros (2 - Z.of_nat (List.length es)) ++ es
  else if p <=? 0 then ["0"; "."]%char ++ zeros (- p) ++ ds
  else if n <=? p then ds ++ zeros (p - n) ++ ["."; "0"]%char
  else firstn (Z.to_nat p) ds ++ "."%char :: skipn (Z.to_nat p) ds.

Definition repr (x : float) : string :=
  match x with
  | S754_nan => "nan"
  | S754_infinity s => if s then "-inf" else "inf"
  | S754_zero s => if s then "-0.0" else "0.0"
  | S754_finite s m e =>
      let num := if 0 <=? e then Zpos m * 2 ^ e else Zpos m in
      let den := if 0 <=? e then 1 else 2 ^ (- e) in
      let p := decpt_of num den in
      let ks := [1; 2; 3; 4; 5; 6; 7; 8; 9; 10; 11; 12; 13; 14; 15; 16; 17] in
      match shortest (S754_finite false m e) num den p ks with
      | Some (c, q) =>
          let all := digits_of_Z c in
          let ds := rev (drop_zeros (rev all)) in
          string_of_list_ascii
            ((if s then ["-"%char] else [])
               ++ layout ds (Z.of_nat (List.length all) + q))
      | None => "nan" (* not reached: 17 digits always convert back *)
      end
  end.

End PyFloat.

Import PyFloat.

(** ** Python values

    The dynamically typed values the sensor stores in its native value
    and in its attributes. *)

Inductive pyval : Type :=
  | PNone
  | PInt (n : Z)
  | PFloat (x : float)
  | PStr (s : string)
  | PList (l : list string).

(** [x == n] for a float and an int compares the exact values. *)
Definition float_eq_int (x : float) (n : Z) : bool :=
  match x with
  | S754_zero _ => (n =? 0)%Z
  | S754_finite s m e =>
      if (0 <=? e)%Z
      then ((if s then - (Zpos m * 2 ^ e) else Zpos m * 2 ^ e) =? n)%Z
      else ((Zpos m mod 2 ^ (- e) =? 0)
            && ((if s then - (Zpos m / 2 ^ (- e)) else Zpos m / 2 ^ (- e)) =? n))%Z
  | _ => false
  end.

(** [a != b] on the values a native value can take. *)
Definition py_ne (a b : pyval) : bool :=
  match a, b with
  | PNone, PNone => false
  | PInt m, PInt n => negb (m =? n)%Z
  | PFloat x, PFloat y => negb (feqb x y)
  | PInt n, PFloat x | PFloat x, PInt n => negb (float_eq_int x n)
  | PStr s, PStr t => negb (String.eqb s t)
  | _, _ => true
  end.

(** [str(v)] for a tracked extremum, which is [None] or a float. *)
Definition py_str (v : option float) : string :=
  match v with
  | None => "None"
  | Some x => repr x
  end.

(** An optional entity id as a value: [None] or the string itself. *)
Definition py_id (v : option string) : pyval :=
  match v with
  | None => PNone
  | Some e => PStr e
  end.

(** ** Constants ([const.py] and the host's state sentinels) *)

Definition ATTR_ENTITY_ID : string := "entity_id".
Definition ATTR_MIN_VALUE : string := "min_value".
Definition ATTR_MIN_ENTITY_ID : string := "min_entity_id".
Definition ATTR_MAX_VALUE : string := "max_value".
Definition ATTR_MAX_ENTITY_ID : string := "max_entity_id".

Definition METHOD_TIME_WEIGHTED : string := "time-weighted".
Definition METHOD_LINEAR : string := "linear".
Definition TOTAL_METHOD_SUM : string := "sum".
Definition TOTAL_METHOD_AVERAGE : string := "average".

Definition STATE_UNAVAILABLE : string := "unavailable".
Definition STATE_UNKNOWN : string := "unknown".

(** ** The sensor *)

Abbreviation datetime := Z (only parsing).
Abbreviation timedelta := Z (only parsing).

(** A buffered sample [(timestamp_start, state)]. *)
Abbreviation sample := (Z * spec_float)%type (only parsing).

(** The state object of an upstream entity, as far as it is read. *)
Record State : Type := {
  state : string;
  last_updated : datetime
}.

(** The fields of [TwAverageSensor] the core reads or writes, and the
    states written to the host by [async_write_ha_state], oldest
    first. *)
Record Sensor : Type := {
  scan_interval : timedelta;
  _precision : N;
  _extremas : bool;
  _method : string;
  _total_method : string;
  _attr_native_value : pyval;
  _attr_extra_state_attributes : gmap string pyval;
  states : list (string * list sample);
  min_value : option float;
  max_value : option float;
  min_entity_id : option string;
  max_entity_id : option string;
  ha_state : list (pyval * gmap string pyval)
}.

Definition set_states (d : list (string * list sample)) (self : Sensor) : Sensor :=
  {| scan_interval := scan_interval self; _precision := _precision self;
     _extremas := _extremas self; _method := _method self;
     _total_method := _total_method self;
     _attr_native_value := _attr_native_value self;
     _attr_extra_state_attributes := _attr_extra_state_attributes self;
     states := d;
     min_value := min_value self; max_value := max_value self;
     min_entity_id := min_entity_id self; max_entity_id := max_entity_id self;
     ha_state := ha_state self |}.

Definition set_min_value (v : option float) (self : Sensor) : Sensor :=
  {| scan_interval := scan_interval self; _precision := _precision self;
     _extremas := _extremas self; _method := _method self;
     _total_method := _total_method self;
     _attr_native_value := _attr_native_value self;
     _attr_extra_state_attributes := _attr_extra_state_attributes self;
     states := states self;
     min_value := v; max_value := max_value self;
     min_entity_id := min_entity_id self; max_entity_id := max_entity_id self;
     ha_state := ha_state self |}.

Definition set_max_value (v : option float) (self : Sensor) : Sensor :=
  {| scan_interval := scan_interval self; _precision := _precision self;
     _extremas := _extremas self; _method := _method self;
     _total_method := _total_method self;
     _attr_native_value := _attr_native_value self;
     _attr_extra_state_attributes := _attr_extra_state_attributes self;
     states := states self;
     min_value := min_value self; max_value := v;
     min_entity_id := min_entity_id self; max_entity_id := max_entity_id self;
     ha_state := ha_state self |}.

Definition set_min_entity_id (v : option string) (self : Sensor) : Sensor :=
  {| scan_interval := scan_interval self; _precision := _precision self;
     _extremas := _extremas self; _method := _method self;
     _total_method := _total_method self;
     _attr_native_value := _attr_native_value self;
     _attr_extra_state_attributes := _attr_extra_state_attributes self;
     states := states self;
     min_value := min_value self; max_value := max_value self;
     min_entity_id := v; max_entity_id := max_entity_id self;
     ha_state := ha_state self |}.

Definition set_max_entity_id (v : option string) (self : Sensor) : Sensor :=
  {| scan_interval := scan_interval self; _precision := _precision self;
     _extremas := _extremas self; _method := _method self;
     _total_method := _total_method self;
     _attr_native_value := _attr_native_value self;
     _attr_extra_state_attributes := _attr_extra_state_attributes self;
     states := states self;
     min_value := min_value self; max_value := max_value self;
     min_entity_id := min_entity_id self; max_entity_id := v;
     ha_state := ha_state self |}.

Definition set_native_value (v : pyval) (self : Sensor) : Sensor :=
  {| scan_interval := scan_interval self; _precision := _precision self;
     _extremas := _extremas self; _method := _method self;
     _total_method := _total_method self;
     _attr_native_value := v;
     _attr_extra_state_attributes := _attr_extra_state_attributes self;
     states := states self;
     min_value := min_value self; max_value := max_value self;
     min_entity_id := min_entity_id self; max_entity_id := max_entity_id self;
     ha_state := ha_state self |}.

Definition set_attributes (a : gmap string pyval) (self : Sensor) : Sensor :=
  {| scan_interval := scan_interval self; _precision := _precision self;
     _extremas := _extremas self; _method := _method self;
     _total_method := _total_method self;
     _attr_native_value := _attr_native_value self;
     _attr_extra_state_attributes := a;
     states := states self;
     min_value := min_value self; max_value := max_value self;
     min_entity_id := min_entity_id self; max_entity_id := max_entity_id self;
     ha_state := ha_state self |}.

Definition set_ha_state (h : list (pyval * gmap string pyval)) (self : Sensor) : Sensor :=
  {| scan_interval := scan_interval self; _precision := _precision self;
     _extremas := _extremas self; _method := _method self;
     _total_method := _total_method self;
     _attr_native_value := _attr_native_value self;
     _attr_extra_state_attributes := _attr_extra_state_attributes self;
     states := states self;
     min_value := min_value self; max_value := max_value self;
     min_entity_id := min_entity_id self; max_entity_id := max_entity_id self;
     ha_state := h |}.

(** *** The dictionary of buffers *)

Fixpoint dict_get {V : Type} (k : string) (d : list (string * V)) : option V :=
  match d with
  | [] => None
  | (k', v) :: d' => if String.eqb k k' then Some v else dict_get k d'
  end.

(** Assignment to a key: the value is replaced in place, or the pair
    is added at the end. *)
Fixpoint dict_set {V : Type} (k : string) (v : V) (d : list (string * V))
  : list (string * V) :=
  match d with
  | [] => [(k, v)]
  | (k', v') :: d' =>
      if String.eqb k k' then (k', v) :: d' else (k', v') :: dict_set k v d'
  end.

(** ** Methods: state and exceptions *)

Definition M (A : Type) : Type := Sensor -> outcome A * Sensor.

Definition ret {A} (a : A) : M A := fun self => (Ret a, self).

Definition bind {A B} (m : M A) (k : A -> M B) : M B :=
  fun self =>
    match m self with
    | (Ret a, self') => k a self'
    | (Raise e, self') => (Raise e, self')
    end.

Definition raise {A} (e : exn) : M A := fun self => (Raise e, self).

Definition lift {A} (r : outcome A) : M A := fun self => (r, self).

Definition get : M Sensor := fun self => (Ret self, self).

Definition modify (f : Sensor -> Sensor) : M unit := fun self => (Ret tt, f self).

(** [try: m except (e1, ...): h] *)
Definition try_except {A} (m : M A) (caught : exn -> bool) (h : M A) : M A :=
  fun self =>
    match m self with
    | (Raise e, self') => if caught e then h self' else (Raise e, self')
    | r => r
    end.

Notation "x <-- m ;; k" := (bind m (fun x => k))
  (at level 100, m at next level, right associativity).
Notation "m ;;; k" := (bind m (fun _ => k))
  (at level 100, right associativity).

(** [self.states[entity_id]] followed by a mutation [f] of the list
    found there; the lookup raises [KeyError] for an unknown id. *)
Definition states_modify (entity_id : string) (f : list sample -> list sample)
  : M unit :=
  self <-- get ;;
  match dict_get entity_id (states self) with
  | None => raise KeyError
  | Some l => modify (set_states (dict_set entity_id (f l) (states self)))
  end.

(** [__init__]: one empty buffer per (expanded) entity id, no native
    value, the entity ids as only attribute, extrema unset. *)
Definition init (scan_interval : timedelta) (entity_ids : list string)
    (precision : N) (extremas : bool) (method total_method : string) : Sensor :=
  {| scan_interval := scan_interval; _precision := precision;
     _extremas := extremas; _method := method;
     _total_method := total_method;
     _attr_native_value := PNone;
     _attr_extra_state_attributes := {[ ATTR_ENTITY_ID := PList entity_ids ]};
     states := fold_left (fun d e => dict_set e [] d) entity_ids [];
     min_value := None; max_value := None;
     min_entity_id := None; max_entity_id := None;
     ha_state := [] |}.

(** *** [_async_sensor_changed]

    The listener is a coroutine without suspension points: its body
    runs to completion.  [track_extrema] is the block guarded by
    [self._extremas]; comparing with a maximum that is [None] raises
    [TypeError]. *)

Definition track_extrema (entity_id : string) (value : float) : M unit :=
  self <-- get ;;
  if _extremas self then
    match min_value self with
    | None =>
        modify (set_min_value (Some value)) ;;;
        modify (set_max_value (Some value)) ;;;
        modify (set_min_entity_id (Some entity_id)) ;;;
        modify (set_max_entity_id (Some entity_id))
    | Some lo =>
        if flt value lo then
          modify (set_min_value (Some value)) ;;;
          modify (set_min_entity_id (Some entity_id))
        else
          match max_value self with
          | None => raise TypeError
          | Some hi =>
              if fgt value hi then
                modify (set_max_value (Some value)) ;;;
                modify (set_max_entity_id (Some entity_id))
              else ret tt
          end
    end
  else ret tt.

Definition _async_sensor_changed (entity_id : string)
    (old_state new_state : option State) : M unit :=
  match new_state with
  | None => ret tt
  | Some new_state =>
      if String.eqb (state new_state) STATE_UNAVAILABLE
         || String.eqb (state new_state) STATE_UNKNOWN
      then ret tt
      else
        try_except
          (value <-- lift (match of_string (state new_state) with
                           | Some x => Ret x
                           | None => Raise ValueError
                           end) ;;
           states_modify entity_id
             (fun l => l ++ [(last_updated new_state, value)]) ;;;
           track_extrema entity_id value)
          (fun e => match e with ValueError | TypeError => true | _ => false end)
          (ret tt)
  end.

(** *** [calculate_tw] *)

(** The [for index, (start, value) in enumerate(states)] loop; [rest]
    is what remains to be visited, [index] the position of its head. *)
Fixpoint tw_loop (now : datetime) (states : list sample) (states_len : Z)
    (index : nat) (rest : list sample) (result : float) : outcome float :=
  match rest with
  | [] => Ret result
  | (start, value) :: rest' =>
      match (if (Z.of_nat index <? states_len)%Z
             then match states !! (index + 1)%nat with
                  | Some next => Ret (fst next)
                  | None => Raise IndexError
                  end
             else Ret now) with
      | Raise e => Raise e
      | Ret end_ =>
          tw_loop now states states_len (S index) rest'
            (fadd result (fmul value (total_seconds (end_ - start))))
      end
  end.

Definition calculate_tw (now : datetime) (entity_id : string)
    (states : list sample) : M float :=
  let result := fzero in
  last_value <-- lift (match last states with
                       | Some s => Ret (snd s)
                       | None => Raise IndexError
                       end) ;;
  let states_len := (Z.of_nat (List.length states) - 1)%Z in
  result <-- lift (tw_loop now states states_len 0 states result) ;;
  self <-- get ;;
  result <-- lift (truediv result (total_seconds (scan_interval self))) ;;
  states_modify entity_id (fun _ => []) ;;;
  states_modify entity_id (fun l => l ++ [(now, last_value)]) ;;;
  ret result.

(** *** [calculate_linear] *)

(** [sum(values)] by plain left-to-right additions.  (Interpreters
    that compensate the rounding of the partial sums differ in the last
    bits; no caller ever receives the value, see below.) *)
Definition py_sum (values : list float) : float :=
  fold_left fadd values fzero.

(** The debug call after the buffer is cleared has [total] among its
    arguments, a name bound neither in this function nor in the module:
    evaluating it raises [NameError], before [result] is returned. *)
Definition calculate_linear (entity_id : string) (states : list sample)
  : M float :=
  let values := map snd states in
  result <-- lift (truediv (py_sum values)
                     (of_int (Z.of_nat (List.length values)))) ;;
  states_modify entity_id (fun _ => []) ;;;
  total <-- raise (A := float) NameError ;;
  ret result.

(** *** [update_state] *)

Definition async_write_ha_state : M unit :=
  modify (fun self =>
    set_ha_state
      (ha_state self
         ++ [(_attr_native_value self, _attr_extra_state_attributes self)])
      self).

Definition update_state (new_value : float) : M unit :=
  self <-- get ;;
  average <-- (if (_precision self =? 0)%N
               then n <-- lift (trunc new_value) ;; ret (PInt n)
               else ret (PFloat (round new_value (Z.of_N (_precision self))))) ;;
  if py_ne (_attr_native_value self) average then
    modify (set_native_value average) ;;;
    (if _extremas self then
       modify (fun self =>
         set_attributes
           (<[ATTR_MAX_ENTITY_ID := py_id (max_entity_id self)]>
            (<[ATTR_MAX_VALUE := PStr (py_str (max_value self))]>
             (<[ATTR_MIN_ENTITY_ID := py_id (min_entity_id self)]>
              (<[ATTR_MIN_VALUE := PStr (py_str (min_value self))]>
               (_attr_extra_state_attributes self)))))
           self)
     else ret tt) ;;;
    async_write_ha_state
  else ret tt.

(** *** [update], the periodic tick *)

(** The loop over [self.states.items()].  Keys of a dictionary are
    distinct and an iteration mutates the list of its own key only, so
    the list an iteration receives is the one stored when the loop
    began. *)
Fixpoint update_loop (now : datetime) (items : list (string * list sample))
    (total : float) (state_changed : bool) : M (float * bool) :=
  match items with
  | [] => ret (total, state_changed)
  | (entity_id, states) :: items' =>
      if (0 <? List.length states)%nat then
        self <-- get ;;
        contribution <--
          (if String.eqb (_method self) METHOD_LINEAR
           then calculate_linear entity_id states
           else calculate_tw now entity_id states) ;;
        update_loop now items' (fadd total contribution) true
      else update_loop now items' total state_changed
  end.

(** The value handed to [update_state], by [self._total_method]. *)
Definition combine (total : float) : M float :=
  self <-- get ;;
  if String.eqb (_total_method self) TOTAL_METHOD_AVERAGE
  then lift (truediv total (of_int (Z.of_nat (List.length (states self)))))
  else ret total.

Definition reset_extrema (self : Sensor) : Sensor :=
  set_max_entity_id None
    (set_min_entity_id None (set_max_value None (set_min_value None self))).

(** [now] is the reading of the clock, [utcnow()]. *)
Definition update (now : datetime) : M unit :=
  let total := fzero in
  let state_changed := false in
  self <-- get ;;
  r <-- update_loop now (states self) total state_changed ;;
  (if snd r
   then (combined <-- combine (fst r) ;; update_state combined)
   else ret tt) ;;;
  modify reset_extrema.

(** *** [async_added_to_hass]

    [last_state] is what [async_get_last_state()] returned.  The
    registration of the listener that follows is the host's business. *)
Definition async_added_to_hass (last_state : option State) : M unit :=
  match last_state with
  | None => ret tt
  | Some last_state =>
      try_except
        (x <-- lift (match of_string (state last_state) with
                     | Some x => Ret x
                     | None => Raise ValueError
                     end) ;;
         modify (set_native_value (PFloat x)))
        (fun e => match e with ValueError | TypeError => true | _ => false end)
        (ret tt)
  end.

(** *** The life of a sensor

    The host calls the listener on every state change and [update] on
    every poll, and goes on calling them after a call has raised. *)
Inductive call : Type :=
  | Changed (entity_id : string) (old_state new_state : option State)
  | Tick (now : datetime).

Definition perform (c : call) : M unit :=
  match c with
  | Changed entity_id old_state new_state =>
      _async_sensor_changed entity_id old_state new_state
  | Tick now => update now
  end.

(** The sensor after a sequence of calls. *)
Definition after (calls : list call) (self : Sensor) : Sensor :=
  fold_left (fun self c => snd (perform c self)) calls self.

(** ** What the specification says, in its own words *)

(** The duration of each sample of a buffer: up to the next sample, and
    up to [now] for the last one. *)
Fixpoint durations (now : datetime) (samples : list sample) : list timedelta :=
  match samples with
  | [] => []
  | (t, _) :: rest =>
      match rest with
      | [] => [(now - t)%Z]
      | (t', _) :: _ => (t' - t)%Z :: durations now rest
      end
  end.

(** The sum over [i] of [v_i] times its duration in seconds. *)
Definition tw_integral (now : datetime) (samples : list sample) : float :=
  fold_left fadd
    (zip_with (fun s d => fmul (snd s) (total_seconds d))
       samples (durations now samples))
    fzero.

(** The time-weighted contribution of a buffer: the integral over the
    nominal interval length. *)
Definition tw_contribution (interval : timedelta) (now : datetime)
    (samples : list sample) : float :=
  fdiv (tw_integral now samples) (total_seconds interval).

Definition nonempty {A} (l : list A) : bool := (0 <? List.length l)%nat.

(** The contributions of the sources that have samples, in the order
    of the sources, and their sum. *)
Definition tw_contributions (now : datetime) (self : Sensor) : list float :=
  map (tw_contribution (scan_interval self) now)
    (List.filter nonempty (map snd (states self))).

Definition tw_total (now : datetime) (self : Sensor) : float :=
  fold_left fadd (tw_contributions now self) fzero.


(** The seed a tick leaves in a buffer: [(now, last_sample_value)]. *)
Definition seed (now : datetime) (samples : list sample) : list sample :=
  match last samples with
  | Some s => [(now, snd s)]
  | None => []
  end.

(** The buffers after a tick of the time-weighted method: every
    source that had samples is left with its seed. *)
Definition seed_all (now : datetime) (items d : list (string * list sample))
  : list (string * list sample) :=
  fold_left
    (fun d p => if nonempty (snd p) then dict_set (fst p) (seed now (snd p)) d else d)
    items d.


(** [self'] differs from [self] in [self.states] at most. *)
Definition only_states (self self' : Sensor) : Prop :=
  self' = set_states (states self') self.

(** The attributes of a state written with extrema tracking enabled. *)
Definition with_extrema (self : Sensor) : gmap string pyval :=
  <[ATTR_MAX_ENTITY_ID := py_id (max_entity_id self)]>
    (<[ATTR_MAX_VALUE := PStr (py_str (max_value self))]>
      (<[ATTR_MIN_ENTITY_ID := py_id (min_entity_id self)]>
        (<[ATTR_MIN_VALUE := PStr (py_str (min_value self))]>
          (_attr_extra_state_attributes self)))).

(** The configuration of [self'] is that of [self]. *)
Definition same_config (self self' : Sensor) : Prop :=
  scan_interval self' = scan_interval self
  /\ _precision self' = _precision self
  /\ _extremas self' = _extremas self
  /\ _method self' = _method self
  /\ _total_method self' = _total_method self.

(** The four fields of the extrema are all unset or all set. *)
Definition extrema_consistent (self : Sensor) : Prop :=
  (min_value self = None /\ max_value self = None
   /\ min_entity_id self = None /\ max_entity_id self = None)
  \/ (is_Some (min_value self) /\ is_Some (max_value self)
      /\ is_Some (min_entity_id self) /\ is_Some (max_entity_id self)).

Definition is_nan (x : float) : bool :=
  match x with S754_nan => true | _ => false end.

(** [self'] has the keys of [self], in the same order. *)
Definition same_keys (self self' : Sensor) : Prop :=
  map fst (states self') = map fst (states self).

(** The value [update_state] compares with the native value. *)
Definition rounded (self : Sensor) (new_value : float) : outcome pyval :=
  if (_precision self =? 0)%N
  then match trunc new_value with Ret n => Ret (PInt n) | Raise e => Raise e end
  else Ret (PFloat (round new_value (Z.of_N (_precision self)))).

(** The sensor after [update_state] has published [average]. *)
Definition published (average : pyval) (self : Sensor) : Sensor :=
  let attributes :=
    if _extremas self then with_extrema self
    else _attr_extra_state_attributes self in
  set_ha_state (ha_state self ++ [(average, attributes)])
    (set_attributes attributes (set_native_value average self)).

(** The sensor after the extrema have taken [value] in. *)
Definition extrema_after (entity_id : string) (value : float) (self : Sensor)
  : Sensor :=
  if _extremas self then
    match min_value self, max_value self with
    | None, _ =>
        set_max_entity_id (Some entity_id)
          (set_min_entity_id (Some entity_id)
             (set_max_value (Some value) (set_min_value (Some value) self)))
    | Some lo, max =>
        if flt value lo
        then set_min_entity_id (Some entity_id) (set_min_value (Some value) self)
        else match max with
             | Some hi =>
                 if fgt value hi
                 then set_max_entity_id (Some entity_id)
                        (set_max_value (Some value) self)
                 else self
             | None => self
             end
    end
  else self.

(** What a time-weighted tick makes of one buffer. *)
Definition seeded (now : datetime) (p : string * list sample)
  : string * list sample :=
  (fst p, if nonempty (snd p) then seed now (snd p) else snd p).

(** The time of the last tick among [calls]. *)
Fixpoint last_tick (calls : list call) : option datetime :=
  match calls with
  | [] => None
  | c :: calls' =>
      match last_tick calls', c with
      | Some now, _ => Some now
      | None, Tick now => Some now
      | None, Changed _ _ _ => None
      end
  end.

(** No state change of [entity_id] is among [calls]. *)
Definition silent (entity_id : string) (calls : list call) : Prop :=
  Forall (fun c => match c with
                   | Changed e _ _ => e <> entity_id
                   | Tick _ => True
                   end) calls.

(** A state change that brings no sample: without a new state, with a
    sentinel, or with a state [float()] rejects. *)
Definition unusable (new_state : option State) : Prop :=
  match new_state with
  | None => True
  | Some s =>
      state s = STATE_UNAVAILABLE \/ state s = STATE_UNKNOWN
      \/ of_string (state s) = None
  end.

(** The calls of an interval in which no sample is ingested: state
    changes only, none of which brings a sample. *)
Definition no_sample (calls : list call) : Prop :=
  Forall (fun c => match c with
                   | Changed _ _ new_state => unusable new_state
                   | Tick _ => False
                   end) calls.

(** ** Example inputs *)

(** [timedelta(seconds=1)]. *)
Definition second : timedelta := 1000000.

(** A state change of an upstream entity. *)
Definition event (value : string) (t : datetime) : option State :=
  Some {| state := value; last_updated := t |}.

(** Value 10 from 0 s on, value 20 from 30 s on. *)
Definition two_samples : list sample :=
  [(0, of_int 10); (30 * second, of_int 20)]%Z.

(** One source, time-weighted, summed, one decimal, extrema on, polled
    every 60 seconds: values 10 at 0 s and 20 at 30 s have arrived. *)
Definition one_source : Sensor :=
  snd (_async_sensor_changed "sensor.a" None (event "20" (30 * second))
    (snd (_async_sensor_changed "sensor.a" None (event "10" 0)
      (init (60 * second) ["sensor.a"] 1 true
         METHOD_TIME_WEIGHTED TOTAL_METHOD_SUM)))).

(** The same sensor after its tick at 60 s. *)
Definition one_source_ticked : Sensor := snd (update (60 * second) one_source).

(** Two sources of which none has delivered a sample. *)
Definition silent_sources : Sensor :=
  init (60 * second) ["sensor.a"; "sensor.b"] 1 true
    METHOD_TIME_WEIGHTED TOTAL_METHOD_SUM.

(** Two sources with extrema tracking: [sensor.a] has delivered 10 at
    0 s and 20 at 30 s. *)
Definition tracked_sources : Sensor :=
  snd (_async_sensor_changed "sensor.a" None (event "20" (30 * second))
    (snd (_async_sensor_changed "sensor.a" None (event "10" 0)
      silent_sources))).

(** Two sources, time-weighted, averaged: [sensor.a] has delivered 10
    at 0 s, [sensor.b] nothing. *)
Definition two_sources : Sensor :=
  snd (_async_sensor_changed "sensor.a" None (event "10" 0)
    (init (60 * second) ["sensor.a"; "sensor.b"] 1 false
       METHOD_TIME_WEIGHTED TOTAL_METHOD_AVERAGE)).

(** What arrives between two ticks without bringing a sample. *)
Definition dropped_events : list call :=
  [ Changed "sensor.a" None (event "unavailable" (70 * second));
    Changed "sensor.a" None (event "n/a" (80 * second));
    Changed "sensor.a" None None ].

(** One source, time-weighted, summed, precision 0, extrema on: the
    value 1e308 has arrived at 0 s. *)
Definition overflowing_source : Sensor :=
  snd (_async_sensor_changed "sensor.a" None (event "1e308" 0)
    (init (60 * second) ["sensor.a"] 0 true
       METHOD_TIME_WEIGHTED TOTAL_METHOD_SUM)).

(** One source, linear method: values 2 at 0 s and 4 at 1 s. *)
Definition linear_source : Sensor :=
  snd (_async_sensor_changed "sensor.a" None (event "4" (1 * second))
    (snd (_async_sensor_changed "sensor.a" None (event "2" 0)
      (init (60 * second) ["sensor.a"] 1 false
         METHOD_LINEAR TOTAL_METHOD_AVERAGE)))).

(** ** Proofs *)

Ltac run := unfold bind, ret, get, modify, lift, raise in *; simpl in *.

(** *** The dictionary *)

Lemma dict_get_set_eq {V} k (v : V) d : dict_get k (dict_set k v d) = Some v.
Proof.
  induction d as [|[k' v'] d IH]; simpl.
  - by rewrite String.eqb_refl.
  - destruct (String.eqb k k') eqn:E; simpl; rewrite E; [done | apply IH].
Qed.

Lemma dict_get_set_ne {V} k k' (v : V) d :
  k <> k' -> dict_get k (dict_set k' v d) = dict_get k d.
Proof.
  intros Hne. induction d as [|[k0 v0] d IH]; simpl.
  - by apply String.eqb_neq in Hne as ->.
  - destruct (String.eqb k' k0) eqn:E; simpl.
    + apply String.eqb_eq in E as <-.
      by apply String.eqb_neq in Hne as ->.
    + by rewrite IH.
Qed.

Lemma dict_set_set {V} k (v v' : V) d :
  dict_set k v (dict_set k v' d) = dict_set k v d.
Proof.
  induction d as [|[k0 v0] d IH]; simpl.
  - by rewrite String.eqb_refl.
  - destruct (String.eqb k k0) eqn:E; simpl; rewrite E; [done | by rewrite IH].
Qed.

Lemma dict_set_keys {V} k (v : V) d :
  is_Some (dict_get k d) -> map fst (dict_set k v d) = map fst d.
Proof.
  induction d as [|[k0 v0] d IH]; simpl.
  - by intros [? ?].
  - destruct (String.eqb k k0) eqn:E; simpl; [done|].
    intros H. by rewrite IH.
Qed.

Lemma dict_get_is_Some {V} k (d : list (string * V)) :
  In k (map fst d) <-> is_Some (dict_get k d).
Proof.
  induction d as [|[k0 v0] d IH]; simpl.
  - split; [done | by intros [? ?]].
  - destruct (String.eqb k k0) eqn:E.
    + apply String.eqb_eq in E as ->. split; eauto.
    + apply String.eqb_neq in E. rewrite <- IH. split; [|tauto].
      intros [?|?]; [congruence | done].
Qed.

Lemma dict_get_None {V} k (d : list (string * V)) :
  ~ In k (map fst d) -> dict_get k d = None.
Proof.
  intros H. destruct (dict_get k d) eqn:E; [|done].
  exfalso. apply H, dict_get_is_Some. eauto.
Qed.

(** *** The time-weighted loop *)

Lemma tw_loop_spec now pre rest acc :
  tw_loop now (pre ++ rest) (Z.of_nat (List.length (pre ++ rest)) - 1)
    (List.length pre) rest acc
  = Ret (fold_left fadd
           (zip_with (fun s d => fmul (snd s) (total_seconds d))
              rest (durations now rest))
           acc).
Proof.
  revert pre acc. induction rest as [|[start value] rest IH]; intros pre acc.
  - done.
  - cbn [tw_loop].
    match goal with
    | |- context [(?a <? ?b)%Z] => destruct (Z.ltb_spec a b) as [H|H]
    end; rewrite length_app in H; cbn [List.length] in H;
      destruct rest as [|[t' v'] rest']; cbn [List.length] in H; try lia.
    + rewrite lookup_app_r by lia.
      replace (List.length pre + 1 - List.length pre)%nat with 1%nat by lia.
      cbn [lookup list_lookup fst].
      specialize (IH (pre ++ [(start, value)])
                    (fadd acc (fmul value (total_seconds (t' - start))))).
      rewrite <- app_assoc, (length_app pre [(start, value)]) in IH.
      cbn [app List.length] in IH.
      replace (List.length pre + 1)%nat with (S (List.length pre)) in IH by lia.
      rewrite IH. reflexivity.
    + reflexivity.
Qed.

Lemma tw_loop_integral now samples :
  tw_loop now samples (Z.of_nat (List.length samples) - 1) 0 samples fzero
  = Ret (tw_integral now samples).
Proof. apply (tw_loop_spec now [] samples fzero). Qed.
(** *** The methods *)

Lemma last_nonempty {A} (l : list A) : l <> [] -> exists x, last l = Some x.
Proof.
  intros H. destruct (last l) eqn:E; [eauto|].
  by apply last_None in E.
Qed.

Lemma states_modify_run e f self l :
  dict_get e (states self) = Some l ->
  states_modify e f self = (Ret tt, set_states (dict_set e (f l) (states self)) self).
Proof. intros H. unfold states_modify. run. by rewrite H. Qed.

Lemma states_modify_missing e f self :
  dict_get e (states self) = None ->
  states_modify e f self = (Raise KeyError, self).
Proof. intros H. unfold states_modify. run. by rewrite H. Qed.

Lemma calculate_tw_run now e samples self :
  samples <> [] ->
  is_Some (dict_get e (states self)) ->
  is_zero (total_seconds (scan_interval self)) = false ->
  calculate_tw now e samples self
  = (Ret (tw_contribution (scan_interval self) now samples),
     set_states (dict_set e (seed now samples) (states self)) self).
Proof.
  intros Hne [l Hl] Hz. unfold calculate_tw, seed, tw_contribution.
  destruct (last_nonempty samples Hne) as [[t v] Hlast].
  unfold bind at 1. unfold lift at 1. rewrite Hlast.
  unfold bind at 1. unfold lift at 1. rewrite tw_loop_integral.
  unfold bind at 1. unfold get at 1.
  unfold bind at 1. unfold lift at 1. unfold truediv. rewrite Hz.
  unfold bind at 1. rewrite (states_modify_run _ _ _ _ Hl).
  unfold bind at 1. erewrite states_modify_run.
  2:{ simpl. apply dict_get_set_eq. }
  simpl. rewrite dict_set_set. reflexivity.
Qed.

Lemma update_loop_tw now items total sc self :
  String.eqb (_method self) METHOD_LINEAR = false ->
  is_zero (total_seconds (scan_interval self)) = false ->
  (forall e, In e (map fst items) -> In e (map fst (states self))) ->
  update_loop now items total sc self
  = (Ret (fold_left fadd
            (map (tw_contribution (scan_interval self) now)
               (List.filter nonempty (map snd items)))
            total,
          sc || existsb nonempty (map snd items)),
     set_states (seed_all now items (states self)) self).
Proof.
  intros Hm Hz. revert total sc self Hm Hz.
  induction items as [|[e buf] items IH]; intros total sc self Hm Hz Hk.
  - destruct self; run. by rewrite orb_false_r.
  - cbn [update_loop map List.filter existsb seed_all fold_left fst snd].
    fold (nonempty buf). destruct (nonempty buf) eqn:Hb.
    + unfold bind at 1. unfold get at 1. rewrite Hm.
      unfold bind at 1. rewrite calculate_tw_run; [| |by apply dict_get_is_Some, Hk; left|done].
      2:{ intros ->. done. }
      rewrite IH; [|done|done|].
      * cbn [map fold_left]. rewrite orb_true_r. reflexivity.
      * intros e' He'. cbn [states set_states].
        rewrite dict_set_keys by (apply dict_get_is_Some, Hk; by left).
        apply Hk. by right.
    + rewrite IH; [|done|done|].
      * reflexivity.
      * intros e' He'. apply Hk. by right.
Qed.

Lemma seed_all_cons now e buf items d :
  seed_all now ((e, buf) :: items) d
  = seed_all now items (if nonempty buf then dict_set e (seed now buf) d else d).
Proof. reflexivity. Qed.

Lemma seed_all_keys now items d :
  (forall e, In e (map fst items) -> In e (map fst d)) ->
  map fst (seed_all now items d) = map fst d.
Proof.
  revert d. induction items as [|[e buf] items IH]; intros d Hk; [done|].
  rewrite seed_all_cons. destruct (nonempty buf).
  - rewrite IH.
    + apply dict_set_keys, dict_get_is_Some, Hk. by left.
    + intros e' He'.
      rewrite dict_set_keys by (apply dict_get_is_Some, Hk; by left).
      apply Hk. by right.
  - apply IH. intros e' He'. apply Hk. by right.
Qed.

Lemma seed_all_get now items d e :
  NoDup (map fst items) ->
  dict_get e (seed_all now items d)
  = match dict_get e items with
    | Some buf => if nonempty buf then Some (seed now buf) else dict_get e d
    | None => dict_get e d
    end.
Proof.
  revert d. induction items as [|[e1 b1] items IH]; intros d Hnd; [done|].
  apply NoDup_cons in Hnd as [Hnotin Hnd].
  rewrite seed_all_cons. cbn [dict_get]. rewrite IH by done.
  destruct (String.eqb e e1) eqn:E.
  - apply String.eqb_eq in E as ->.
    rewrite (dict_get_None e1 items).
    2:{ by rewrite <- list_elem_of_In. }
    destruct (nonempty b1); [apply dict_get_set_eq | done].
  - apply String.eqb_neq in E.
    destruct (nonempty b1); [|done].
    rewrite dict_get_set_ne by done. done.
Qed.

(** What the methods after the loop leave alone. *)

Lemma combine_state total self : snd (combine total self) = self.
Proof.
  unfold combine. run.
  destruct (String.eqb _ _); [|done]. by destruct (truediv _ _).
Qed.

Lemma update_state_states v self :
  states (snd (update_state v self)) = states self.
Proof.
  unfold update_state, async_write_ha_state. run.
  destruct (_precision self =? 0)%N; run.
  - destruct (trunc v); [|done].
    destruct (py_ne _ _); [|done]. by destruct (_extremas self).
  - destruct (py_ne _ _); [|done]. by destruct (_extremas self).
Qed.

Lemma update_tw now self :
  String.eqb (_method self) METHOD_LINEAR = false ->
  is_zero (total_seconds (scan_interval self)) = false ->
  update now self
  = ((if existsb nonempty (map snd (states self))
      then (combined <-- combine (tw_total now self) ;; update_state combined)
      else ret tt) ;;;
     modify reset_extrema)
      (set_states (seed_all now (states self) (states self)) self).
Proof.
  intros Hm Hz. unfold update.
  unfold bind at 1. unfold get at 1.
  unfold bind at 1. rewrite update_loop_tw by done.
  reflexivity.
Qed.

Lemma update_tw_states now self :
  String.eqb (_method self) METHOD_LINEAR = false ->
  is_zero (total_seconds (scan_interval self)) = false ->
  states (snd (update now self)) = seed_all now (states self) (states self).
Proof.
  intros Hm Hz. rewrite update_tw by done.
  set (s1 := set_states _ self).
  destruct (existsb nonempty (map snd (states self))).
  - unfold bind at 1. unfold bind at 1.
    pose proof (combine_state (tw_total now self) s1) as Hc.
    destruct (combine (tw_total now self) s1) as [[c|ex] s2]; simpl in Hc; subst s2.
    + pose proof (update_state_states c s1) as Hu.
      destruct (update_state c s1) as [[[]|ex] s3]; simpl in Hu; simpl; by rewrite Hu.
    + done.
  - done.
Qed.

(** *** Floats *)

(** [float] on strings.  Of an ASCII string only the white space of the
    C locale is stripped: the separators U+001C to U+001F, white space
    to [str.isspace], are not.  White space and decimal digits beyond
    ASCII are accepted: a no-break space (bytes 194 160) around ["7"],
    the Arabic-Indic digits one and two (bytes 217 161, 217 162), the
    ideographic space and the fullwidth digits.  Anything else beyond
    ASCII is rejected, and so are bytes that encode nothing. *)
Example float_of_strings :
  of_string " 1_000.5e-1 " = Some (of_ratio 20010 200)
  /\ of_string (String "028" "1") = None
  /\ of_string (String "031" "1") = None
  /\ of_string (String "011" "1") = Some (of_int 1)
  /\ of_string (String "194" (String "160"
                  (String "7" (String "194" (String "160" "")))))
     = Some (of_int 7)
  /\ of_string (String "217" (String "161" (String "217" (String "162" ""))))
     = Some (of_int 12)
  /\ of_string (String "194" (String "160" (String "028" "1"))) = None
  /\ of_string "　１２．５" = None
  /\ of_string "　１２.５" = Some (of_ratio 25 2)
  /\ of_string "1é" = None
  /\ of_string (String "160" "7") = None
  /\ of_string "unavailable" = None
  /\ of_string "-Infinity" = Some (S754_infinity true)
  /\ of_string "NaN" = Some S754_nan.
Proof. vm_compute. done. Qed.

Lemma SFcompare_refl_not_Lt x : SFcompare x x <> Some Lt.
Proof.
  destruct x as [[]|[]| |[] m e]; simpl; try discriminate;
    rewrite Z.compare_refl, Pos.compare_cont_refl; discriminate.
Qed.

Lemma SFcompare_refl_not_Gt x : SFcompare x x <> Some Gt.
Proof.
  destruct x as [[]|[]| |[] m e]; simpl; try discriminate;
    rewrite Z.compare_refl, Pos.compare_cont_refl; discriminate.
Qed.

Lemma flt_irrefl x : flt x x = false.
Proof.
  unfold flt, SFltb. pose proof (SFcompare_refl_not_Lt x).
  by destruct (SFcompare x x) as [[]|].
Qed.

Lemma fgt_irrefl x : fgt x x = false.
Proof.
  unfold fgt. pose proof (SFcompare_refl_not_Gt x).
  by destruct (SFcompare x x) as [[]|].
Qed.

Lemma feqb_not_flt x y : feqb x y = true -> flt x y = false.
Proof. unfold feqb, flt, SFeqb, SFltb. by destruct (SFcompare x y) as [[]|]. Qed.

Lemma feqb_not_fgt x y : feqb x y = true -> fgt x y = false.
Proof. unfold feqb, fgt, SFeqb. by destruct (SFcompare x y) as [[]|]. Qed.

(** Shifting a mantissa to the right by fewer bits than it has leaves a
    positive mantissa. *)
Lemma shr_1_pos r m :
  shr_m r = Zpos m -> (1 < Zpos (digits2_pos m))%Z ->
  exists m', shr_m (shr_1 r) = Zpos m'
             /\ Zpos (digits2_pos m') = (Zpos (digits2_pos m) - 1)%Z.
Proof.
  destruct r as [mr rr sr]. simpl. intros -> Hd.
  destruct m as [p|p|]; simpl in *; [| |lia]; exists p; split; try done; lia.
Qed.

Lemma iter_shr_1_pos n : forall r m,
  shr_m r = Zpos m -> (Zpos n < Zpos (digits2_pos m))%Z ->
  exists m', shr_m (SpecFloat.iter_pos shr_1 n r) = Zpos m'
             /\ Zpos (digits2_pos m') = (Zpos (digits2_pos m) - Zpos n)%Z.
Proof.
  induction n as [n IH|n IH|]; intros r m Hr Hd; cbn [SpecFloat.iter_pos].
  - destruct (shr_1_pos r m Hr) as (m1 & H1 & D1); [lia|].
    destruct (IH _ _ H1) as (m2 & H2 & D2); [lia|].
    destruct (IH _ _ H2) as (m3 & H3 & D3); [lia|].
    exists m3. split; [done|lia].
  - destruct (IH _ _ Hr) as (m2 & H2 & D2); [lia|].
    destruct (IH _ _ H2) as (m3 & H3 & D3); [lia|].
    exists m3. split; [done|lia].
  - destruct (shr_1_pos r m Hr) as (m1 & H1 & D1); [lia|].
    exists m1. split; [done|lia].
Qed.

Lemma shr_fexp_pos m e l :
  (-1021 <= e)%Z ->
  exists m', shr_m (fst (shr_fexp prec emax (Zpos m) e l)) = Zpos m'
             /\ (e <= snd (shr_fexp prec emax (Zpos m) e l))%Z.
Proof.
  intros He. unfold shr_fexp, shr, fexp, SpecFloat.emin, prec, emax.
  cbn [Zdigits2].
  pose proof (Pos2Z.is_pos (digits2_pos m)) as Hd.
  destruct (Z.max (Z.pos (digits2_pos m) + e - 53) (3 - 1024 - 53) - e)%Z
    as [|n|n] eqn:En; cbn [fst snd].
  - exists m. split; [by destruct l as [|[]]|lia].
  - destruct (iter_shr_1_pos n (shr_record_of_loc (Zpos m) l) m) as (m' & H1 & _).
    + by destruct l as [|[]].
    + lia.
    + exists m'. split; [done|lia].
  - exists m. split; [by destruct l as [|[]]|lia].
Qed.

Lemma binary_round_aux_nonzero s m e l :
  (-1021 <= e)%Z ->
  is_zero (binary_round_aux prec emax s (Zpos m) e l) = false.
Proof.
  intros He. unfold binary_round_aux.
  destruct (shr_fexp_pos m e l He) as (m1 & H1 & E1).
  destruct (shr_fexp prec emax (Zpos m) e l) as [mrs1 e1]. cbn [fst snd] in *.
  rewrite H1.
  assert (exists m2, round_nearest_even (Zpos m1) (loc_of_shr_record mrs1) = Zpos m2)
    as [m2 ->].
  { unfold round_nearest_even.
    destruct (loc_of_shr_record mrs1) as [|[]]; eauto;
      try destruct (Z.even (Zpos m1)); eauto;
      exists (m1 + 1)%positive; lia. }
  destruct (shr_fexp_pos m2 e1 loc_Exact) as (m3 & H3 & E3); [lia|].
  destruct (shr_fexp prec emax (Zpos m2) e1 loc_Exact) as [mrs2 e2].
  cbn [fst snd] in *. rewrite H3.
  by destruct (e2 <=? emax - prec)%Z.
Qed.

Lemma of_int_nonzero n : n <> 0%Z -> is_zero (of_int n) = false.
Proof.
  intros Hn. unfold of_int, binary_normalize.
  destruct n as [|p|p]; [done| |];
    unfold binary_round;
    destruct (shl_align p 0 _) as [mz ez] eqn:Ea;
    apply binary_round_aux_nonzero;
    unfold shl_align, fexp, SpecFloat.emin, prec, emax in Ea;
    pose proof (Pos2Z.is_pos (digits2_pos p));
    destruct (Z.max _ _ - 0)%Z eqn:Ez in Ea; inversion Ea; lia.
Qed.

Lemma digits2_pos_lower p : (2 ^ (Zpos (digits2_pos p) - 1) <= Zpos p)%Z.
Proof.
  induction p as [p IH|p IH|]; cbn [digits2_pos]; [| |done];
    rewrite Pos2Z.inj_succ;
    replace (Z.succ (Zpos (digits2_pos p)) - 1)%Z
      with (Z.succ (Zpos (digits2_pos p) - 1))%Z by lia;
    rewrite Z.pow_succ_r by lia; lia.
Qed.

(** A duration that is not zero has a number of seconds that is not
    zero. *)
Lemma total_seconds_nonzero us :
  us <> 0%Z -> is_zero (total_seconds us) = false.
Proof.
  intros Hus. unfold total_seconds, of_ratio.
  assert (forall s p, is_zero (SFdiv prec emax (S754_finite s p 0)
                                 (S754_finite false 1000000 0)) = false) as H.
  { intros s p. unfold SFdiv, SFdiv_core_binary.
    set (e' := Z.min _ _).
    assert (e' = Z.min (Zpos (digits2_pos p) - 73) 0) as He'.
    { subst e'. unfold fexp, SpecFloat.emin, prec, emax. cbn [Zdigits2].
      change (Zpos (digits2_pos 1000000)) with 20%Z.
      pose proof (Pos2Z.is_pos (digits2_pos p)). lia. }
    pose proof (digits2_pos_lower p) as Hp.
    set (m' := match (0 - 0 - e')%Z with
               | Zpos _ => Z.shiftl (Zpos p) (0 - 0 - e')
               | Z0 => Zpos p
               | Zneg _ => 0%Z
               end).
    assert (2 ^ 72 <= m')%Z as Hm'.
    { subst m'. destruct (0 - 0 - e')%Z as [|k|k] eqn:Ek.
      - assert (72 <= Zpos (digits2_pos p) - 1)%Z as Hd by lia.
        apply (Z.pow_le_mono_r 2) in Hd; lia.
      - rewrite Z.shiftl_mul_pow2 by lia.
        assert (Zpos k = 73 - Zpos (digits2_pos p))%Z as -> by lia.
        replace 72%Z
          with ((Zpos (digits2_pos p) - 1) + (73 - Zpos (digits2_pos p)))%Z by lia.
        pose proof (Pos2Z.is_pos (digits2_pos p)).
        rewrite Z.pow_add_r by lia.
        apply Z.mul_le_mono_nonneg_r; [apply Z.pow_nonneg|]; lia.
      - lia. }
    pose proof (Z_div_mod m' 1000000 eq_refl) as Hdm.
    destruct (Z.div_eucl m' 1000000) as [q r].
    assert (0 < q)%Z as Hq.
    { assert (1000000 < 2 ^ 72)%Z by done. nia. }
    destruct q as [|q|q]; [lia| |lia].
    apply binary_round_aux_nonzero. lia. }
  destruct us; [done|apply H|apply H].
Qed.

(** ** The claims *)

(** *** Time-weighted contribution *)

Lemma durations_lookup now samples i t v :
  samples !! i = Some (t, v) ->
  durations now samples !! i
  = Some (match samples !! S i with
          | Some next => fst next - t
          | None => now - t
          end)%Z.
Proof.
  revert i. induction samples as [|[t0 v0] rest IH]; intros i Hi; [done|].
  destruct i as [|i].
  - injection Hi as -> ->. by destruct rest as [|[t' v'] rest'].
  - cbn [lookup list_lookup] in Hi. specialize (IH i Hi).
    destruct rest as [|[t' v'] rest']; [done|]. exact IH.
Qed.

(** C4.  For a non-empty buffer [(t_0, v_0) .. (t_n, v_n)] of a
    configured source and a scan interval that is not zero,
    [calculate_tw] returns the sum of the [v_i] times their durations in
    seconds, divided by the number of seconds of the scan interval, the
    duration of a sample being the time to the next sample, and the time
    to [now] for the last one.  No time of a previous tick enters the
    result. *)
Theorem calculate_tw_contribution now entity_id samples self :
  samples <> [] ->
  In entity_id (map fst (states self)) ->
  scan_interval self <> 0%Z ->
  fst (calculate_tw now entity_id samples self)
  = Ret (fdiv (tw_integral now samples) (total_seconds (scan_interval self)))
  /\ forall i t v,
       samples !! i = Some (t, v) ->
       durations now samples !! i
       = Some (match samples !! S i with
               | Some next => fst next - t
               | None => now - t
               end)%Z.
Proof.
  intros Hne Hk Hz. split.
  - rewrite calculate_tw_run; [done|done| |].
    + by apply dict_get_is_Some.
    + by apply total_seconds_nonzero.
  - apply durations_lookup.
Qed.

Lemma calculate_tw_contribution_witness :
  two_samples <> []
  /\ In "sensor.a" (map fst (states one_source))
  /\ scan_interval one_source <> 0%Z
  /\ fst (calculate_tw (60 * second) "sensor.a" two_samples one_source)
     = Ret (of_int 15).
Proof.
  split; [done|]. split; [by left|]. split; [done|].
  destruct (calculate_tw_contribution (60 * second) "sensor.a"
              two_samples one_source) as [H _]; [done|by left|done|].
  rewrite H. vm_compute. reflexivity.
Defined.

(** A tick that comes 60 seconds late still divides by the 60 seconds
    of the scan interval: (10 * 30 + 20 * 90) / 60. *)
Example late_tick_contribution :
  fst (calculate_tw (120 * second) "sensor.a" two_samples one_source)
  = Ret (of_int 35).
Proof. vm_compute. reflexivity. Qed.

(** *** Combination across sources *)

Lemma existsb_nonempty_length (d : list (string * list sample)) :
  existsb nonempty (map snd d) = true -> List.length d <> 0%nat.
Proof. by destruct d. Qed.




(** *** The seed left by a tick *)




(** *** Two ticks in succession *)

Lemma update_loop_idle now items total sc self :
  Forall (fun p => snd p = []) items ->
  update_loop now items total sc self = (Ret (total, sc), self).
Proof.
  induction 1 as [|[e buf] items Hb _ IH]; [done|].
  simpl in Hb. subst buf. exact IH.
Qed.

Lemma update_idle now self :
  Forall (fun p => snd p = []) (states self) ->
  update now self = (Ret tt, reset_extrema self).
Proof.
  intros H. unfold update. run. by rewrite update_loop_idle.
Qed.

(** C3, as the code has it.  When the first tick leaves every buffer
    empty, a second tick with no ingestion in between returns normally,
    writes no state to the host and leaves the native value unchanged;
    it changes nothing but the (already reset) extrema. *)
Theorem second_tick_on_empty_buffers now1 now2 self :
  Forall (fun p => snd p = []) (states (snd (update now1 self))) ->
  let self1 := snd (update now1 self) in
  let self2 := snd (update now2 self1) in
  fst (update now2 self1) = Ret tt
  /\ ha_state self2 = ha_state self1
  /\ _attr_native_value self2 = _attr_native_value self1
  /\ self2 = reset_extrema self1.
Proof.
  intros H self1 self2. subst self2 self1.
  by rewrite (update_idle now2 _ H).
Qed.

Lemma second_tick_on_empty_buffers_witness :
  Forall (fun p => snd p = []) (states (snd (update (60 * second) silent_sources)))
  /\ fst (update (120 * second) (snd (update (60 * second) silent_sources)))
     = Ret tt
  /\ ha_state (snd (update (120 * second)
                      (snd (update (60 * second) silent_sources))))
     = ha_state (snd (update (60 * second) silent_sources)).
Proof.
  assert (Forall (fun p : string * list sample => snd p = [])
            (states (snd (update (60 * second) silent_sources)))) as H.
  { vm_compute. repeat constructor. }
  split; [exact H|].
  destruct (second_tick_on_empty_buffers (60 * second) (120 * second)
              silent_sources H) as (H1 & H2 & _).
  by split.
Defined.

(** C3, as the specification words it, fails: after the values 10 and
    20 the tick at 60 s publishes 15.0 and leaves the seed (60 s, 20);
    the tick at 120 s, with no ingestion in between, integrates the
    seed, publishes a second state and changes the native value to
    20.0. *)
Lemma second_tick_reports_again :
  fst (update (60 * second) one_source) = Ret tt
  /\ _attr_native_value one_source_ticked = PFloat (of_int 15)
  /\ List.length (ha_state one_source_ticked) = 1%nat
  /\ fst (update (120 * second) one_source_ticked) = Ret tt
  /\ List.length (ha_state (snd (update (120 * second) one_source_ticked)))
     = 2%nat
  /\ _attr_native_value (snd (update (120 * second) one_source_ticked))
     = PFloat (of_int 20)
  /\ _attr_native_value (snd (update (120 * second) one_source_ticked))
     <> _attr_native_value one_source_ticked.
Proof. vm_compute. repeat split; discriminate. Qed.

(** *** Ingestion *)

(** C7.  With extrema tracking enabled and an extremum of the current
    interval established, a state change whose value parses to [value]
    keeps the minimum and its entity id when [value] is equal to the
    minimum (identical, or equal as floats), and changes either of them
    only when [value] is strictly smaller; the same holds for the
    maximum with strictly larger. *)
Theorem extrema_first_seen_wins entity_id old_state new_state value lo hi self :
  _extremas self = true ->
  min_value self = Some lo ->
  max_value self = Some hi ->
  of_string (state new_state) = Some value ->
  let self' :=
    snd (_async_sensor_changed entity_id old_state (Some new_state) self) in
  (value = lo \/ feqb value lo = true ->
   min_value self' = Some lo /\ min_entity_id self' = min_entity_id self)
  /\ (value = hi \/ feqb value hi = true ->
      max_value self' = Some hi /\ max_entity_id self' = max_entity_id self)
  /\ (min_value self' <> Some lo \/ min_entity_id self' <> min_entity_id self ->
      flt value lo = true)
  /\ (max_value self' <> Some hi \/ max_entity_id self' <> max_entity_id self ->
      fgt value hi = true).
Proof.
  intros Hx Hlo Hhi Hv self'. subst self'.
  assert (forall v, (value = v \/ feqb value v = true) -> flt value v = false) as Hlt.
  { intros v [->|H]; [apply flt_irrefl | by apply feqb_not_flt]. }
  assert (forall v, (value = v \/ feqb value v = true) -> fgt value v = false) as Hgt.
  { intros v [->|H]; [apply fgt_irrefl | by apply feqb_not_fgt]. }
  remember (_async_sensor_changed entity_id old_state (Some new_state) self)
    as res eqn:Hres.
  unfold _async_sensor_changed in Hres.
  destruct (String.eqb (state new_state) STATE_UNAVAILABLE
            || String.eqb (state new_state) STATE_UNKNOWN).
  { subst res. simpl. rewrite Hlo, Hhi. repeat split; try done; by intros [?|?]. }
  unfold try_except in Hres. rewrite Hv in Hres.
  unfold bind at 1 in Hres. unfold lift at 1 in Hres.
  unfold bind at 1 in Hres.
  destruct (dict_get entity_id (states self)) as [l|] eqn:Hget.
  2:{ rewrite states_modify_missing in Hres by done. subst res. simpl.
      rewrite Hlo, Hhi. repeat split; try done; by intros [?|?]. }
  rewrite (states_modify_run _ _ _ _ Hget) in Hres.
  unfold track_extrema in Hres. run. rewrite Hx, Hlo, Hhi in Hres.
  destruct (flt value lo) eqn:Elt; simpl in Hres;
    [|destruct (fgt value hi) eqn:Egt; simpl in Hres];
    subst res; simpl; rewrite ?Hlo, ?Hhi;
    (split; [|split; [|split]]);
    first [ done
          | by intros [?|?]
          | intros H; apply Hlt in H; congruence
          | intros H; apply Hgt in H; congruence ].
Qed.

Lemma extrema_first_seen_wins_witness :
  _extremas tracked_sources = true
  /\ min_value tracked_sources = Some (of_int 10)
  /\ max_value tracked_sources = Some (of_int 20)
  /\ of_string "10" = Some (of_int 10)
  /\ min_value (snd (_async_sensor_changed "sensor.b" None
                       (event "10" (40 * second)) tracked_sources))
     = Some (of_int 10)
  /\ min_entity_id (snd (_async_sensor_changed "sensor.b" None
                           (event "10" (40 * second)) tracked_sources))
     = Some "sensor.a".
Proof.
  split; [done|]. split; [done|]. split; [done|]. split; [done|].
  destruct (extrema_first_seen_wins "sensor.b" None
              {| state := "10"; last_updated := 40 * second |}
              (of_int 10) (of_int 10) (of_int 20) tracked_sources)
    as (H & _); [done..|].
  destruct H as [H1 H2]; [by left|]. split; [exact H1|].
  etransitivity; [exact H2|]. vm_compute. reflexivity.
Defined.

(** A strictly smaller value does take over the minimum, with the id of
    the entity that delivered it. *)
Example strictly_smaller_replaces :
  min_value (snd (_async_sensor_changed "sensor.b" None
                    (event "5" (40 * second)) tracked_sources))
  = Some (of_int 5)
  /\ min_entity_id (snd (_async_sensor_changed "sensor.b" None
                           (event "5" (40 * second)) tracked_sources))
     = Some "sensor.b"
  /\ states (snd (_async_sensor_changed "sensor.b" None
                    (event "10" (40 * second)) tracked_sources))
     = [("sensor.a", two_samples); ("sensor.b", [((40 * second)%Z, of_int 10)])].
Proof. vm_compute. done. Qed.

(** C8, as the code has it.  A state change without a new state, with
    the state ["unavailable"] or ["unknown"], or with a state on which
    [float()] raises [ValueError], returns normally and leaves the
    sensor as it was: buffers and extrema included. *)
Theorem unusable_state_is_dropped entity_id old_state new_state self :
  (new_state = None
   \/ exists s, new_state = Some s
        /\ (state s = STATE_UNAVAILABLE \/ state s = STATE_UNKNOWN
            \/ of_string (state s) = None)) ->
  _async_sensor_changed entity_id old_state new_state self = (Ret tt, self).
Proof.
  intros [->|(s & -> & H)]; [done|].
  unfold _async_sensor_changed.
  destruct H as [H|[H|H]].
  - by rewrite H.
  - rewrite H. by rewrite orb_true_r.
  - destruct (_ || _); [done|]. unfold try_except. run. by rewrite H.
Qed.

Lemma unusable_state_is_dropped_witness :
  (event "n/a" (40 * second) = None
   \/ exists s, event "n/a" (40 * second) = Some s
        /\ (state s = STATE_UNAVAILABLE \/ state s = STATE_UNKNOWN
            \/ of_string (state s) = None))
  /\ _async_sensor_changed "sensor.a" None (event "n/a" (40 * second))
       tracked_sources
     = (Ret tt, tracked_sources).
Proof.
  assert (event "n/a" (40 * second) = None
          \/ exists s, event "n/a" (40 * second) = Some s
               /\ (state s = STATE_UNAVAILABLE \/ state s = STATE_UNKNOWN
                   \/ of_string (state s) = None)) as H.
  { right. eexists. split; [reflexivity|]. right. right. reflexivity. }
  split; [exact H|].
  exact (unusable_state_is_dropped "sensor.a" None _ tracked_sources H).
Defined.

(** C8, as the specification words it, fails: ["inf"] is not a finite
    number, [float("inf")] does not raise, and the sample is buffered
    and enters the extrema. *)
Lemma infinite_state_is_buffered :
  of_string "inf" = Some (S754_infinity false)
  /\ is_finite (S754_infinity false) = false
  /\ dict_get "sensor.b" (states tracked_sources) = Some []
  /\ dict_get "sensor.b"
       (states (snd (_async_sensor_changed "sensor.b" None
                       (event "inf" (40 * second)) tracked_sources)))
     = Some [((40 * second)%Z, S754_infinity false)]
  /\ max_value (snd (_async_sensor_changed "sensor.b" None
                       (event "inf" (40 * second)) tracked_sources))
     = Some (S754_infinity false)
  /\ snd (_async_sensor_changed "sensor.b" None
            (event "inf" (40 * second)) tracked_sources)
     <> tracked_sources.
Proof. vm_compute. repeat split; discriminate. Qed.

(** *** The published state *)

(** The loop of [update] writes to [self.states] and to nothing else,
    whatever the method and whether or not it raises. *)

Lemma only_states_refl self : only_states self self.
Proof. by destruct self. Qed.

Lemma only_states_trans s1 s2 s3 :
  only_states s1 s2 -> only_states s2 s3 -> only_states s1 s3.
Proof. unfold only_states. intros H12 H23. rewrite H23 at 1. by rewrite H12. Qed.

Lemma states_modify_only_states e f self :
  only_states self (snd (states_modify e f self)).
Proof.
  unfold states_modify. run.
  destruct (dict_get e (states self)); [done|apply only_states_refl].
Qed.

Lemma bind_only_states {A B} (m : M A) (k : A -> M B) self :
  only_states self (snd (m self)) ->
  (forall a s, only_states s (snd (k a s))) ->
  only_states self (snd (bind m k self)).
Proof.
  intros Hm Hk. unfold bind. destruct (m self) as [[a|e] s1]; [|done].
  eapply only_states_trans; [exact Hm|apply Hk].
Qed.

Ltac only_states_step :=
  apply bind_only_states;
  [ first [ apply states_modify_only_states | apply only_states_refl ]
  | intros ? ? ].

Lemma calculate_tw_only_states now e samples self :
  only_states self (snd (calculate_tw now e samples self)).
Proof.
  unfold calculate_tw. do 6 only_states_step. apply only_states_refl.
Qed.

Lemma calculate_linear_only_states e samples self :
  only_states self (snd (calculate_linear e samples self)).
Proof.
  unfold calculate_linear. do 3 only_states_step. apply only_states_refl.
Qed.

Lemma update_loop_only_states now items total sc self :
  only_states self (snd (update_loop now items total sc self)).
Proof.
  revert total sc self. induction items as [|[e buf] items IH]; intros total sc self.
  - apply only_states_refl.
  - cbn [update_loop]. destruct (0 <? List.length buf)%nat; [|apply IH].
    apply bind_only_states; [apply only_states_refl|]. intros s0 s.
    apply bind_only_states; [|intros; apply IH].
    destruct (String.eqb _ _);
      [apply calculate_linear_only_states | apply calculate_tw_only_states].
Qed.

(** [update_state] writes no state, or one state whose attributes are
    those of [with_extrema] when extrema tracking is enabled. *)
Lemma update_state_written v self :
  ha_state (snd (update_state v self)) = ha_state self
  \/ exists average,
       ha_state (snd (update_state v self))
       = ha_state self
           ++ [(average,
                if _extremas self then with_extrema self
                else _attr_extra_state_attributes self)].
Proof.
  unfold update_state, async_write_ha_state, with_extrema. run.
  destruct (_precision self =? 0)%N; run.
  - destruct (trunc v) as [n|e]; [|by left].
    destruct (py_ne _ _); [|by left].
    right. exists (PInt n). by destruct (_extremas self).
  - destruct (py_ne _ _); [|by left].
    right. eexists. by destruct (_extremas self).
Qed.

Lemma update_unfold now self :
  update now self
  = match update_loop now (states self) fzero false self with
    | (Ret (total, state_changed), self1) =>
        if state_changed then
          match combine total self1 with
          | (Ret combined, self2) =>
              match update_state combined self2 with
              | (Ret _, self3) => (Ret tt, reset_extrema self3)
              | (Raise e, self3) => (Raise e, self3)
              end
          | (Raise e, self2) => (Raise e, self2)
          end
        else (Ret tt, reset_extrema self1)
    | (Raise e, self1) => (Raise e, self1)
    end.
Proof.
  unfold update. run.
  destruct (update_loop now (states self) fzero false self) as [[[total sc]|e] s1];
    [|done].
  simpl. destruct sc; [|done].
  destruct (combine total s1) as [[c|e] s2]; [|done].
  by destruct (update_state c s2) as [[[]|e] s3].
Qed.

(** A tick writes no state, or one state; with extrema tracking
    enabled its attributes hold the extrema as they were at the tick. *)
Lemma update_written now self :
  ha_state (snd (update now self)) = ha_state self
  \/ exists average,
       ha_state (snd (update now self))
       = ha_state self
           ++ [(average,
                if _extremas self then with_extrema self
                else _attr_extra_state_attributes self)].
Proof.
  rewrite update_unfold.
  pose proof (update_loop_only_states now (states self) fzero false self) as Hf.
  destruct (update_loop now (states self) fzero false self) as [[[total sc]|e] s1];
    cbn [fst snd] in *; [|left; by rewrite Hf].
  assert (ha_state s1 = ha_state self /\ _extremas s1 = _extremas self
          /\ with_extrema s1 = with_extrema self
          /\ _attr_extra_state_attributes s1 = _attr_extra_state_attributes self)
    as (Hh & Hx & Hw & Ha) by (by rewrite Hf).
  destruct sc; [|by left].
  pose proof (combine_state total s1) as Hc.
  destruct (combine total s1) as [[c|e] s2]; cbn [snd] in Hc; subst s2;
    [|left; by rewrite <- Hh].
  destruct (update_state_written c s1) as [Hu|[average Hu]];
    destruct (update_state c s1) as [[[]|e] s3]; cbn [snd] in *.
  + left. simpl. congruence.
  + left. congruence.
  + right. exists average. simpl. by rewrite Hu, Hh, Hx, Hw, Ha.
  + right. exists average. by rewrite Hu, Hh, Hx, Hw, Ha.
Qed.

Lemma with_extrema_lookup self :
  with_extrema self !! ATTR_MIN_VALUE = Some (PStr (py_str (min_value self)))
  /\ with_extrema self !! ATTR_MAX_VALUE = Some (PStr (py_str (max_value self)))
  /\ with_extrema self !! ATTR_MIN_ENTITY_ID = Some (py_id (min_entity_id self))
  /\ with_extrema self !! ATTR_MAX_ENTITY_ID = Some (py_id (max_entity_id self)).
Proof.
  unfold with_extrema. repeat split.
  - rewrite !lookup_insert_ne by done. apply lookup_insert_eq.
  - rewrite lookup_insert_ne by done. apply lookup_insert_eq.
  - rewrite !lookup_insert_ne by done. apply lookup_insert_eq.
  - apply lookup_insert_eq.
Qed.

Lemma written_state now self w :
  _extremas self = true ->
  ha_state (snd (update now self)) = ha_state self ++ [w] ->
  snd w = with_extrema self.
Proof.
  intros Hx Hw. destruct (update_written now self) as [H|[average H]].
  - rewrite H in Hw. apply (f_equal List.length) in Hw.
    rewrite length_app in Hw. simpl in Hw. lia.
  - rewrite H, Hx in Hw. apply app_inv_head in Hw. by injection Hw as <-.
Qed.

(** C10.  The state a tick writes with extrema tracking enabled has, as
    minimum and maximum, the strings [str(self.min_value)] and
    [str(self.max_value)], the [repr] of the float or ["None"], and as
    entity ids the tracked ids themselves: a string or [None]. *)
Theorem published_extrema_are_strings now self w :
  _extremas self = true ->
  ha_state (snd (update now self)) = ha_state self ++ [w] ->
  snd w !! ATTR_MIN_VALUE = Some (PStr (py_str (min_value self)))
  /\ snd w !! ATTR_MAX_VALUE = Some (PStr (py_str (max_value self)))
  /\ snd w !! ATTR_MIN_ENTITY_ID = Some (py_id (min_entity_id self))
  /\ snd w !! ATTR_MAX_ENTITY_ID = Some (py_id (max_entity_id self)).
Proof.
  intros Hx Hw. rewrite (written_state now self w Hx Hw).
  apply with_extrema_lookup.
Qed.

Lemma published_extrema_are_strings_witness :
  _extremas one_source = true
  /\ ha_state (snd (update (60 * second) one_source))
     = ha_state one_source
         ++ [(PFloat (of_int 15), with_extrema one_source)]
  /\ with_extrema one_source !! ATTR_MIN_VALUE = Some (PStr "10.0")
  /\ with_extrema one_source !! ATTR_MAX_VALUE = Some (PStr "20.0")
  /\ with_extrema one_source !! ATTR_MIN_ENTITY_ID = Some (PStr "sensor.a")
  /\ with_extrema one_source !! ATTR_MAX_ENTITY_ID = Some (PStr "sensor.a").
Proof.
  assert (ha_state (snd (update (60 * second) one_source))
          = ha_state one_source
              ++ [(PFloat (of_int 15), with_extrema one_source)]) as H.
  { vm_compute. reflexivity. }
  split; [done|]. split; [exact H|].
  exact (published_extrema_are_strings (60 * second) one_source _ eq_refl H).
Defined.

(** X16.  A tick that returns leaves the extrema unset, whether or not
    it published; so does [__init__]. *)
Lemma update_resets_extrema now self :
  fst (update now self) = Ret tt ->
  min_value (snd (update now self)) = None
  /\ max_value (snd (update now self)) = None
  /\ min_entity_id (snd (update now self)) = None
  /\ max_entity_id (snd (update now self)) = None.
Proof.
  rewrite update_unfold.
  destruct (update_loop now (states self) fzero false self) as [[[total sc]|e] s1];
    [|done].
  destruct sc; [|done].
  destruct (combine total s1) as [[c|e] s2]; [|done].
  by destruct (update_state c s2) as [[[]|e] s3].
Qed.

(** A tick that returns ends in the reset of the extrema. *)
Lemma update_returns_reset now self :
  fst (update now self) = Ret tt ->
  exists self', snd (update now self) = reset_extrema self'.
Proof.
  rewrite update_unfold.
  destruct (update_loop now (states self) fzero false self) as [[[total sc]|e] s1];
    [|done].
  destruct sc; [|by eexists].
  destruct (combine total s1) as [[c|e] s2]; [|done].
  destruct (update_state c s2) as [[[]|e] s3]; [by eexists|done].
Qed.

(** A tick leaves the extrema flag as it was. *)
Lemma update_keeps_extremas now self :
  _extremas (snd (update now self)) = _extremas self.
Proof.
  rewrite update_unfold.
  pose proof (update_loop_only_states now (states self) fzero false self) as Hf.
  destruct (update_loop now (states self) fzero false self) as [[[total sc]|e] s1];
    cbn [fst snd] in *; [|by rewrite Hf].
  assert (_extremas s1 = _extremas self) as Hx by (by rewrite Hf).
  destruct sc; [|done].
  pose proof (combine_state total s1) as Hc.
  destruct (combine total s1) as [[c|e] s2]; cbn [snd] in Hc; subst s2; [|done].
  assert (_extremas (snd (update_state c s1)) = _extremas s1) as Hu.
  { unfold update_state, async_write_ha_state. run.
    destruct (_precision s1 =? 0)%N; run.
    - destruct (trunc c) as [n|e]; [|done].
      destruct (py_ne _ _); [|done].
      destruct (_extremas s1) eqn:E; simpl; exact E.
    - destruct (py_ne _ _); [|done].
      destruct (_extremas s1) eqn:E; simpl; exact E. }
  destruct (update_state c s1) as [[[]|e] s3]; cbn [snd] in *; simpl; congruence.
Qed.

(** A state change that brings no sample leaves the sensor as it was. *)
Lemma unusable_changes_nothing entity_id old_state new_state self :
  unusable new_state ->
  _async_sensor_changed entity_id old_state new_state self = (Ret tt, self).
Proof.
  destruct new_state as [s|]; [|done]. intros H.
  unfold _async_sensor_changed.
  destruct H as [H|[H|H]].
  - by rewrite H.
  - rewrite H. by rewrite orb_true_r.
  - destruct (_ || _); [done|]. unfold try_except. run. by rewrite H.
Qed.

Lemma no_sample_changes_nothing calls self :
  no_sample calls -> after calls self = self.
Proof.
  unfold after. induction 1 as [|c calls Hc _ IH]; [done|].
  destruct c as [e o n|now]; [|done]. simpl.
  by rewrite (unusable_changes_nothing e o n self Hc).
Qed.

(** C9, as the code has it.  When the previous tick returned and no
    sample was ingested since (the state changes that arrived, if any,
    were all dropped), the state a tick writes with extrema tracking
    enabled has the string ["None"] as minimum and as maximum, and
    [None] as both entity ids. *)
Theorem unset_extrema_are_published_as_None previous now calls self w :
  _extremas self = true ->
  fst (update previous self) = Ret tt ->
  no_sample calls ->
  ha_state (snd (update now (after calls (snd (update previous self)))))
  = ha_state (after calls (snd (update previous self))) ++ [w] ->
  snd w !! ATTR_MIN_VALUE = Some (PStr "None")
  /\ snd w !! ATTR_MAX_VALUE = Some (PStr "None")
  /\ snd w !! ATTR_MIN_ENTITY_ID = Some PNone
  /\ snd w !! ATTR_MAX_ENTITY_ID = Some PNone.
Proof.
  intros Hx Hret Hcalls. rewrite (no_sample_changes_nothing calls _ Hcalls).
  intros Hw.
  assert (_extremas (snd (update previous self)) = true) as Hx'
    by (by rewrite update_keeps_extremas).
  rewrite (written_state now _ w Hx' Hw).
  destruct (update_returns_reset previous self Hret) as [self' ->].
  exact (with_extrema_lookup (reset_extrema self')).
Qed.

Lemma unset_extrema_are_published_as_None_witness :
  _extremas one_source = true
  /\ fst (update (60 * second) one_source) = Ret tt
  /\ no_sample dropped_events
  /\ ha_state (snd (update (120 * second)
                      (after dropped_events (snd (update (60 * second) one_source)))))
     = ha_state (after dropped_events (snd (update (60 * second) one_source)))
         ++ [(PFloat (of_int 20), with_extrema one_source_ticked)]
  /\ with_extrema one_source_ticked !! ATTR_MIN_VALUE = Some (PStr "None")
  /\ with_extrema one_source_ticked !! ATTR_MAX_VALUE = Some (PStr "None")
  /\ with_extrema one_source_ticked !! ATTR_MIN_ENTITY_ID = Some PNone
  /\ with_extrema one_source_ticked !! ATTR_MAX_ENTITY_ID = Some PNone.
Proof.
  assert (no_sample dropped_events) as Hc.
  { apply Forall_cons_2; [by left|].
    apply Forall_cons_2; [right; right; reflexivity|].
    apply Forall_cons_2; [exact I|]. apply Forall_nil_2. }
  assert (ha_state (snd (update (120 * second)
                           (after dropped_events
                              (snd (update (60 * second) one_source)))))
          = ha_state (after dropped_events (snd (update (60 * second) one_source)))
              ++ [(PFloat (of_int 20), with_extrema one_source_ticked)]) as H.
  { vm_compute. reflexivity. }
  split; [done|]. split; [done|]. split; [exact Hc|]. split; [exact H|].
  exact (unset_extrema_are_published_as_None (60 * second) (120 * second)
           dropped_events one_source _ eq_refl eq_refl Hc H).
Defined.

(** C9, as the specification words it, fails: the tick at 120 s, which
    follows the tick at 60 s with no sample in between, writes a state
    whose minimum is neither absent nor [None]; it is the text
    ["None"]. *)
Lemma unset_minimum_is_text :
  _extremas one_source_ticked = true
  /\ fst (update (60 * second) one_source) = Ret tt
  /\ states one_source_ticked = [("sensor.a", [((60 * second)%Z, of_int 20)])]
  /\ List.length (ha_state (snd (update (120 * second) one_source_ticked)))
     = S (List.length (ha_state one_source_ticked))
  /\ (last (ha_state (snd (update (120 * second) one_source_ticked)))
        ≫= (fun w => snd w !! ATTR_MIN_VALUE))
     = Some (PStr "None")
  /\ Some (PStr "None") <> Some PNone.
Proof. vm_compute. repeat split; discriminate. Qed.

(** The previous tick has to have returned: a tick that raises skips
    the reset of the extrema.  With precision 0 the tick at 120 s fails
    on [int(inf)]; the tick at 121 s, which follows without a sample in
    between, publishes the minimum of the interval before. *)
Example failed_tick_leaves_stale_extrema :
  fst (update (120 * second) overflowing_source) = Raise OverflowError
  /\ states (snd (update (120 * second) overflowing_source))
     = [("sensor.a", [((120 * second)%Z, of_decimal false 1 308)])]
  /\ fst (update (121 * second) (snd (update (120 * second) overflowing_source)))
     = Ret tt
  /\ (last (ha_state (snd (update (121 * second)
                             (snd (update (120 * second) overflowing_source)))))
        ≫= (fun w => snd w !! ATTR_MIN_VALUE))
     = Some (PStr "1e+308").
Proof. vm_compute. done. Qed.

(** *** The linear method *)

Lemma calculate_linear_raises entity_id samples self :
  exists e, fst (calculate_linear entity_id samples self) = Raise e.
Proof.
  unfold calculate_linear, states_modify. run.
  destruct (truediv _ _); [|eauto]. simpl.
  destruct (dict_get entity_id (states self)); simpl; eauto.
Qed.

Lemma calculate_linear_NameError entity_id samples self :
  samples <> [] ->
  In entity_id (map fst (states self)) ->
  calculate_linear entity_id samples self
  = (Raise NameError, set_states (dict_set entity_id [] (states self)) self).
Proof.
  intros Hne [l Hl]%dict_get_is_Some.
  unfold calculate_linear. unfold bind at 1. unfold lift at 1.
  unfold truediv. rewrite of_int_nonzero.
  2:{ rewrite length_map. destruct samples; [done|simpl; lia]. }
  unfold bind at 1. by rewrite (states_modify_run _ _ _ _ Hl).
Qed.

Lemma update_loop_linear now items total sc self :
  String.eqb (_method self) METHOD_LINEAR = true ->
  (forall e, In e (map fst items) -> In e (map fst (states self))) ->
  existsb nonempty (map snd items) = true ->
  fst (update_loop now items total sc self) = Raise NameError.
Proof.
  intros Hm. revert total sc.
  induction items as [|[e buf] items IH]; intros total sc Hk Hex; [done|].
  cbn [update_loop]. cbn [map existsb snd] in Hex.
  fold (nonempty buf). destruct (nonempty buf) eqn:Hb.
  - unfold bind at 1. unfold get at 1. rewrite Hm.
    unfold bind at 1. rewrite calculate_linear_NameError; [done| |].
    + by intros ->.
    + apply Hk. by left.
  - apply IH; [|done]. intros e' He'. apply Hk. by right.
Qed.

(** Under the linear method a tick that finds a sample raises. *)
Lemma update_linear_raises now self :
  String.eqb (_method self) METHOD_LINEAR = true ->
  existsb nonempty (map snd (states self)) = true ->
  fst (update now self) = Raise NameError.
Proof.
  intros Hm Hex. rewrite update_unfold.
  pose proof (update_loop_linear now (states self) fzero false self Hm
                (fun e H => H) Hex) as H.
  by destruct (update_loop now (states self) fzero false self)
    as [[[total sc]|e] s1]; simpl in H; [|injection H as ->].
Qed.

(** C5 at the defect.  With the values 2 and 4 buffered, the mean 3 is
    computed and the buffer cleared, and then [calculate_linear] raises
    [NameError]: no contribution is returned. *)
Theorem linear_mean_is_not_returned :
  truediv (py_sum [of_int 2; of_int 4]) (of_int 2) = Ret (of_int 3)
  /\ calculate_linear "sensor.a"
       [(0%Z, of_int 2); ((1 * second)%Z, of_int 4)] linear_source
     = (Raise NameError, set_states [("sensor.a", [])] linear_source).
Proof. vm_compute. done. Qed.

(** C6 at the defect.  Under the linear method the tick on a buffer
    that is not empty lets the [NameError] of [calculate_linear] out to
    its caller: nothing is published and the buffer is lost. *)
Theorem linear_tick_raises :
  update (60 * second) linear_source
  = (Raise NameError, set_states [("sensor.a", [])] linear_source).
Proof. vm_compute. done. Qed.

(** *** Where errors stay inside *)

(** X5.  A state change of a configured entity returns normally,
    whatever its state: [ValueError] and [TypeError] are caught, and
    the lookup of the buffer cannot fail. *)
Lemma _async_sensor_changed_returns entity_id old_state new_state self :
  In entity_id (map fst (states self)) ->
  fst (_async_sensor_changed entity_id old_state new_state self) = Ret tt.
Proof.
  intros [l Hl]%dict_get_is_Some. unfold _async_sensor_changed.
  destruct new_state as [s|]; [|done].
  destruct (_ || _); [done|].
  unfold try_except, bind at 1, lift at 1.
  destruct (of_string (state s)) as [value|]; [|done].
  unfold bind at 1. rewrite (states_modify_run _ _ _ _ Hl).
  unfold track_extrema. run.
  destruct (_extremas self); [|done].
  destruct (min_value self); [|done].
  destruct (flt value _); [done|].
  destruct (max_value self); [|done].
  by destruct (fgt value _).
Qed.

(** Under the time-weighted method, with a scan interval that is not
    zero and a precision that is not zero, a tick returns normally. *)
Lemma update_tw_returns now self :
  String.eqb (_method self) METHOD_LINEAR = false ->
  scan_interval self <> 0%Z ->
  _precision self <> 0%N ->
  fst (update now self) = Ret tt.
Proof.
  intros Hm Hz Hp. rewrite update_unfold.
  rewrite update_loop_tw; [|done|by apply total_seconds_nonzero|done].
  cbv beta iota. cbn [orb].
  destruct (existsb nonempty (map snd (states self))) eqn:Hex; [|done].
  set (self1 := set_states _ self).
  change (fold_left fadd _ fzero) with (tw_total now self).
  assert (exists c, combine (tw_total now self) self1 = (Ret c, self1)) as [c ->].
  { unfold combine, bind, get, lift, ret.
    destruct (String.eqb (_total_method self1) TOTAL_METHOD_AVERAGE); [|eauto].
    unfold truediv. rewrite of_int_nonzero; [eauto|].
    subst self1. cbn [states set_states].
    rewrite <- (length_map fst (seed_all _ _ _)), seed_all_keys, length_map by done.
    apply existsb_nonempty_length in Hex. lia. }
  cbv beta iota. unfold update_state, async_write_ha_state. run.
  apply N.eqb_neq in Hp. rewrite Hp. simpl.
  destruct (py_ne _ _); [|done]. by destruct (_extremas self).
Qed.

(** With precision 0 the conversion [int(new_value)] raises on a value
    that is not finite: after the state ["inf"] the tick raises
    [OverflowError]. *)
Example truncation_of_infinity_raises :
  fst (update (60 * second)
         (snd (_async_sensor_changed "sensor.a" None (event "inf" 0)
                 (init (60 * second) ["sensor.a"] 0 false
                    METHOD_TIME_WEIGHTED TOTAL_METHOD_SUM))))
  = Raise OverflowError.
Proof. vm_compute. reflexivity. Qed.

(** ** Further properties of the code *)

(** *** Construction *)

Lemma dict_set_keys_new {V} k (v : V) d :
  dict_get k d = None -> map fst (dict_set k v d) = map fst d ++ [k].
Proof.
  induction d as [|[k0 v0] d IH]; simpl; [done|].
  destruct (String.eqb k k0); [done|]. intros H. simpl. by rewrite IH.
Qed.

Lemma dict_set_empty_buffers k (d : list (string * list sample)) :
  Forall (fun p => snd p = []) d ->
  Forall (fun p => snd p = []) (dict_set k [] d).
Proof.
  induction 1 as [|[k0 v0] d Hv Hd IH]; simpl.
  - by repeat constructor.
  - destruct (String.eqb k k0); constructor; done.
Qed.

Lemma init_states_from ids : forall d : list (string * list sample),
  NoDup (map fst d) ->
  Forall (fun p => snd p = []) d ->
  let d' := fold_left (fun d e => dict_set e [] d) ids d in
  NoDup (map fst d')
  /\ Forall (fun p => snd p = []) d'
  /\ (forall e, In e (map fst d') <-> In e (map fst d) \/ In e ids)
  /\ (NoDup ids -> (forall e, In e ids -> ~ In e (map fst d)) ->
      map fst d' = map fst d ++ ids).
Proof.
  induction ids as [|e ids IH]; intros d Hnd Hem; cbn [fold_left].
  - repeat split; try done.
    + tauto.
    + intros [?|?]; [done|by exfalso].
    + by rewrite app_nil_r.
  - assert (NoDup (map fst (dict_set e [] d))) as Hnd'.
    { destruct (dict_get e d) eqn:E.
      - by rewrite dict_set_keys by eauto.
      - rewrite dict_set_keys_new by done. apply NoDup_app. split; [done|].
        split; [|apply NoDup_singleton].
        intros x Hx ->%list_elem_of_singleton.
        apply list_elem_of_In, dict_get_is_Some in Hx as [? ?]. congruence. }
    destruct (IH _ Hnd' (dict_set_empty_buffers e d Hem)) as (H1 & H2 & H3 & H4).
    assert (forall x, In x (map fst (dict_set e [] d)) <-> In x (map fst d) \/ x = e)
      as Hk.
    { intros x. destruct (dict_get e d) eqn:E.
      - rewrite dict_set_keys by eauto. split; [tauto|].
        intros [?| ->]; [done|]. apply dict_get_is_Some. eauto.
      - rewrite dict_set_keys_new by done. rewrite in_app_iff. simpl. split.
        + intros [?|[<-|[]]]; [by left|by right].
        + intros [?| ->]; [by left|right; by left]. }
    repeat split; try done.
    + intros H. apply H3 in H as [H|H]; [|right; by right].
      apply Hk in H as [?| ->]; [by left|right; by left].
    + intros [H|[<-|H]]; apply H3.
      * left. apply Hk. by left.
      * left. apply Hk. by right.
      * by right.
    + intros Hids Hfresh. apply NoDup_cons in Hids as [He Hids].
      rewrite H4; [|done|].
      * rewrite dict_set_keys_new.
        -- by rewrite <- app_assoc.
        -- apply dict_get_None, Hfresh. by left.
      * intros x Hx Hin. apply Hk in Hin as [Hin| ->].
        -- apply (Hfresh x); [by right|done].
        -- apply He. by apply list_elem_of_In.
Qed.

(** X18.  [__init__] gives every configured entity one buffer, and an
    empty one: the keys of [self.states] are distinct, they are the
    entity ids, in the order given when no id is repeated, and the
    sensor starts with no native value, no extrema and nothing
    published. *)
Theorem init_buffers scan_interval entity_ids precision extremas method total_method :
  let self := init scan_interval entity_ids precision extremas method total_method in
  NoDup (map fst (states self))
  /\ Forall (fun p => snd p = []) (states self)
  /\ (forall e, In e (map fst (states self)) <-> In e entity_ids)
  /\ (NoDup entity_ids -> map fst (states self) = entity_ids)
  /\ _attr_native_value self = PNone
  /\ min_value self = None
  /\ max_value self = None
  /\ min_entity_id self = None
  /\ max_entity_id self = None
  /\ ha_state self = [].
Proof.
  intros self.
  destruct (init_states_from entity_ids []) as (H1 & H2 & H3 & H4);
    [apply NoDup_nil_2|apply Forall_nil_2|].
  repeat split; try done.
  - intros H. apply H3 in H as [[]|H]; done.
  - intros H. apply H3. by right.
  - intros H. apply H4; [done|]. by intros e _ [].
Qed.

(** *** What every call keeps *)

Lemma states_modify_same_keys e f self :
  same_keys self (snd (states_modify e f self)).
Proof.
  unfold states_modify, same_keys. run.
  destruct (dict_get e (states self)) eqn:E; [|done].
  simpl. apply dict_set_keys. eauto.
Qed.

Lemma bind_same_keys {A B} (m : M A) (k : A -> M B) self :
  same_keys self (snd (m self)) ->
  (forall a s, same_keys s (snd (k a s))) ->
  same_keys self (snd (bind m k self)).
Proof.
  intros Hm Hk. unfold bind. destruct (m self) as [[a|e] s1]; [|done].
  unfold same_keys in *. simpl in Hm. by rewrite Hk.
Qed.

Ltac same_keys_step :=
  apply bind_same_keys;
  [ first [ apply states_modify_same_keys | reflexivity ]
  | intros ? ? ].

Lemma calculate_tw_same_keys now e samples self :
  same_keys self (snd (calculate_tw now e samples self)).
Proof. unfold calculate_tw. do 6 same_keys_step. reflexivity. Qed.

Lemma calculate_linear_same_keys e samples self :
  same_keys self (snd (calculate_linear e samples self)).
Proof. unfold calculate_linear. do 3 same_keys_step. reflexivity. Qed.

Lemma update_loop_same_keys now items total sc self :
  same_keys self (snd (update_loop now items total sc self)).
Proof.
  revert total sc self. induction items as [|[e buf] items IH]; intros total sc self.
  - reflexivity.
  - cbn [update_loop]. destruct (0 <? List.length buf)%nat; [|apply IH].
    apply bind_same_keys; [reflexivity|]. intros s0 s.
    apply bind_same_keys; [|intros; apply IH].
    destruct (String.eqb _ _);
      [apply calculate_linear_same_keys | apply calculate_tw_same_keys].
Qed.

Lemma update_state_unfold v self :
  update_state v self
  = match rounded self v with
    | Raise e => (Raise e, self)
    | Ret average =>
        if py_ne (_attr_native_value self) average
        then (Ret tt, published average self)
        else (Ret tt, self)
    end.
Proof.
  unfold update_state, async_write_ha_state, rounded, published, with_extrema. run.
  destruct (_precision self =? 0)%N; run.
  - destruct (trunc v) as [n|e]; [|done].
    destruct (py_ne _ _); [|done]. destruct (_extremas self); [done|].
    by destruct self.
  - destruct (py_ne _ _); [|done]. destruct (_extremas self); [done|].
    by destruct self.
Qed.

Lemma combine_unfold total self :
  combine total self
  = (if String.eqb (_total_method self) TOTAL_METHOD_AVERAGE
     then truediv total (of_int (Z.of_nat (List.length (states self))))
     else Ret total, self).
Proof. unfold combine. run. by destruct (String.eqb _ _). Qed.

(** How a tick ends, from the sensor [self1] its loop has left. *)
Lemma update_ends now self :
  let self1 := snd (update_loop now (states self) fzero false self) in
  (exists e, update now self = (Raise e, self1))
  \/ update now self = (Ret tt, reset_extrema self1)
  \/ exists average,
       py_ne (_attr_native_value self) average = true
       /\ update now self = (Ret tt, reset_extrema (published average self1)).
Proof.
  intros self1. subst self1. rewrite update_unfold.
  pose proof (update_loop_only_states now (states self) fzero false self) as Hf.
  destruct (update_loop now (states self) fzero false self) as [[[total sc]|e] s1];
    cbn [fst snd] in *; [|left; eauto].
  destruct sc; [|right; by left].
  rewrite combine_unfold.
  destruct (if String.eqb _ _ then _ else _) as [c|e]; [|left; eauto].
  rewrite update_state_unfold.
  destruct (rounded s1 c) as [average|e]; [|left; eauto].
  destruct (py_ne (_attr_native_value s1) average) eqn:Hne.
  - right. right. exists average. split; [|done]. rewrite Hf in Hne. exact Hne.
  - right. by left.
Qed.

Lemma same_config_refl self : same_config self self.
Proof. by repeat split. Qed.

Lemma same_config_trans s1 s2 s3 :
  same_config s1 s2 -> same_config s2 s3 -> same_config s1 s3.
Proof.
  unfold same_config. intros (A1 & A2 & A3 & A4 & A5) (B1 & B2 & B3 & B4 & B5).
  repeat split; congruence.
Qed.

Lemma only_states_same_config self self' :
  only_states self self' -> same_config self self'.
Proof. intros ->. by repeat split. Qed.

Lemma update_keeps now self :
  same_config self (snd (update now self))
  /\ same_keys self (snd (update now self)).
Proof.
  pose proof (update_loop_only_states now (states self) fzero false self) as Hf.
  pose proof (update_loop_same_keys now (states self) fzero false self) as Hk.
  apply only_states_same_config in Hf.
  set (self1 := snd (update_loop now (states self) fzero false self)) in *.
  destruct (update_ends now self) as [[e ->]|[->|(average & _ & ->)]];
    cbn [snd]; fold self1;
    (split; [eapply same_config_trans; [exact Hf|by repeat split] | exact Hk]).
Qed.

(** The listener, case by case. *)
Lemma _async_sensor_changed_unfold entity_id old_state new_state self :
  _async_sensor_changed entity_id old_state new_state self
  = match new_state with
    | None => (Ret tt, self)
    | Some s =>
        if String.eqb (state s) STATE_UNAVAILABLE
           || String.eqb (state s) STATE_UNKNOWN
        then (Ret tt, self)
        else
          match of_string (state s) with
          | None => (Ret tt, self)
          | Some value =>
              match dict_get entity_id (states self) with
              | None => (Raise KeyError, self)
              | Some l =>
                  (Ret tt,
                   extrema_after entity_id value
                     (set_states
                        (dict_set entity_id (l ++ [(last_updated s, value)])
                           (states self))
                        self))
              end
          end
    end.
Proof.
  unfold _async_sensor_changed.
  destruct new_state as [s|]; [|done].
  destruct (_ || _); [done|].
  unfold try_except, bind at 1, lift at 1.
  destruct (of_string (state s)) as [value|]; [|done].
  unfold bind at 1.
  destruct (dict_get entity_id (states self)) as [l|] eqn:Hget.
  2:{ by rewrite states_modify_missing. }
  rewrite (states_modify_run _ _ _ _ Hget).
  unfold track_extrema, extrema_after. run.
  destruct (_extremas self); [|done].
  destruct (min_value self); [|done].
  destruct (flt value _); [done|].
  destruct (max_value self); [|done].
  by destruct (fgt value _).
Qed.

Lemma extrema_after_keeps entity_id value self :
  same_config self (extrema_after entity_id value self)
  /\ states (extrema_after entity_id value self) = states self
  /\ _attr_native_value (extrema_after entity_id value self)
     = _attr_native_value self
  /\ _attr_extra_state_attributes (extrema_after entity_id value self)
     = _attr_extra_state_attributes self
  /\ ha_state (extrema_after entity_id value self) = ha_state self.
Proof.
  unfold extrema_after.
  destruct (_extremas self); [|by repeat split].
  destruct (min_value self); [|by repeat split].
  destruct (flt value _); [by repeat split|].
  destruct (max_value self); [|by repeat split].
  destruct (fgt value _); by repeat split.
Qed.

Lemma _async_sensor_changed_keeps entity_id old_state new_state self :
  let self' := snd (_async_sensor_changed entity_id old_state new_state self) in
  same_config self self' /\ same_keys self self'.
Proof.
  intros self'. subst self'. rewrite _async_sensor_changed_unfold.
  assert (same_config self self /\ same_keys self self) as Hrefl
    by (split; [apply same_config_refl|done]).
  destruct new_state as [s|]; [|exact Hrefl].
  destruct (_ || _); [exact Hrefl|].
  destruct (of_string (state s)) as [value|]; [|exact Hrefl].
  destruct (dict_get entity_id (states self)) as [l|] eqn:Hget; [|exact Hrefl].
  cbn [snd].
  destruct (extrema_after_keeps entity_id value
              (set_states (dict_set entity_id (l ++ [(last_updated s, value)])
                             (states self)) self)) as (Hc & Hs & _).
  split.
  - eapply same_config_trans; [|exact Hc]. by repeat split.
  - unfold same_keys. rewrite Hs. simpl. apply dict_set_keys. eauto.
Qed.

Lemma perform_keeps c self :
  same_config self (snd (perform c self))
  /\ same_keys self (snd (perform c self)).
Proof.
  destruct c; [apply _async_sensor_changed_keeps | apply update_keeps].
Qed.

(** X1.  No state change and no tick, in any number and order, alters
    the configuration of a sensor (scan interval, precision, extrema
    flag, method, combine method) or the keys of [self.states]: no
    source is ever added, dropped or reordered. *)
Theorem calls_keep_configuration_and_sources calls self :
  same_config self (after calls self)
  /\ map fst (states (after calls self)) = map fst (states self).
Proof.
  revert self. induction calls as [|c calls IH]; intros self.
  - split; [apply same_config_refl|done].
  - unfold after. cbn [fold_left]. fold (after calls (snd (perform c self))).
    destruct (perform_keeps c self) as [Hc Hk].
    destruct (IH (snd (perform c self))) as [Hc' Hk'].
    split; [by eapply same_config_trans|]. by rewrite Hk'.
Qed.

(** *** The extrema *)

Lemma extrema_consistent_reset self : extrema_consistent (reset_extrema self).
Proof. by left. Qed.

Lemma update_extrema_consistent now self :
  extrema_consistent self -> extrema_consistent (snd (update now self)).
Proof.
  intros H.
  pose proof (update_loop_only_states now (states self) fzero false self) as Hf.
  destruct (update_ends now self) as [[e ->]|[->|(average & _ & ->)]];
    cbn [snd]; [|by left..].
  rewrite Hf. exact H.
Qed.

Lemma _async_sensor_changed_extrema_consistent entity_id old_state new_state self :
  extrema_consistent self ->
  extrema_consistent (snd (_async_sensor_changed entity_id old_state new_state self)).
Proof.
  intros H. rewrite _async_sensor_changed_unfold.
  destruct new_state as [s|]; [|done].
  destruct (_ || _); [done|].
  destruct (of_string (state s)) as [value|]; [|done].
  destruct (dict_get entity_id (states self)) as [l|] eqn:Hget; [|done].
  cbn [snd]. unfold extrema_after. simpl.
  destruct (_extremas self); [|done].
  destruct H as [(H1 & H2 & H3 & H4)|(H1 & H2 & H3 & H4)].
  - rewrite H1. right. by repeat split.
  - destruct H1 as [lo H1], H2 as [hi H2]. rewrite H1, H2.
    destruct (flt value lo); [|destruct (fgt value hi)];
      right; simpl; rewrite ?H1, ?H2; by repeat split.
Qed.

(** X2.  In every state a constructed sensor can reach, the extrema
    are whole: minimum, maximum and their entity ids are all unset or
    all set.  (So the comparison with a maximum that is [None] never
    happens.) *)
Theorem extrema_are_never_partial calls scan_interval entity_ids precision
    extremas method total_method :
  extrema_consistent
    (after calls
       (init scan_interval entity_ids precision extremas method total_method)).
Proof.
  assert (forall self, extrema_consistent self ->
                       extrema_consistent (after calls self)) as H.
  { induction calls as [|c calls IH]; intros self Hs; [done|].
    unfold after. cbn [fold_left]. apply IH.
    destruct c;
      [by apply _async_sensor_changed_extrema_consistent
      |by apply update_extrema_consistent]. }
  apply H. by left.
Qed.

(** *** Ingestion *)

(** X3.  A state change of a configured entity whose state is not a
    sentinel and parses to [value] returns normally and appends
    [(last_updated, value)] at the end of that entity's buffer; the
    buffers of the other entities, the native value, the attributes and
    the published states are untouched. *)
Theorem state_change_is_appended entity_id old_state new_state value samples self :
  dict_get entity_id (states self) = Some samples ->
  state new_state <> STATE_UNAVAILABLE ->
  state new_state <> STATE_UNKNOWN ->
  of_string (state new_state) = Some value ->
  let r := _async_sensor_changed entity_id old_state (Some new_state) self in
  fst r = Ret tt
  /\ dict_get entity_id (states (snd r))
     = Some (samples ++ [(last_updated new_state, value)])
  /\ (forall other, other <> entity_id ->
        dict_get other (states (snd r)) = dict_get other (states self))
  /\ _attr_native_value (snd r) = _attr_native_value self
  /\ _attr_extra_state_attributes (snd r) = _attr_extra_state_attributes self
  /\ ha_state (snd r) = ha_state self.
Proof.
  intros Hget Hu1 Hu2 Hv r. subst r. rewrite _async_sensor_changed_unfold.
  apply String.eqb_neq in Hu1, Hu2. rewrite Hu1, Hu2, Hv, Hget. cbn [orb fst snd].
  destruct (extrema_after_keeps entity_id value
              (set_states (dict_set entity_id
                             (samples ++ [(last_updated new_state, value)])
                             (states self)) self)) as (_ & Hs & Hn & Ha & Hh).
  rewrite Hs, Hn, Ha, Hh. cbn [states set_states]. repeat split.
  - apply dict_get_set_eq.
  - intros other Hne. by apply dict_get_set_ne.
Qed.

Lemma state_change_is_appended_witness :
  dict_get "sensor.b" (states tracked_sources) = Some []
  /\ "10" <> STATE_UNAVAILABLE
  /\ "10" <> STATE_UNKNOWN
  /\ of_string "10" = Some (of_int 10)
  /\ dict_get "sensor.b"
       (states (snd (_async_sensor_changed "sensor.b" None
                       (event "10" (40 * second)) tracked_sources)))
     = Some [((40 * second)%Z, of_int 10)]
  /\ dict_get "sensor.a"
       (states (snd (_async_sensor_changed "sensor.b" None
                       (event "10" (40 * second)) tracked_sources)))
     = Some two_samples.
Proof.
  do 4 (split; [done|]).
  destruct (state_change_is_appended "sensor.b" None
              {| state := "10"; last_updated := 40 * second |}
              (of_int 10) [] tracked_sources)
    as (_ & H1 & H2 & _); [done..|].
  split; [exact H1|]. etransitivity; [apply H2; done|reflexivity].
Defined.

(** X4.  A state change of an entity that has no buffer raises
    [KeyError] out of the listener, which catches [ValueError] and
    [TypeError] only, and leaves the sensor as it was. *)
Theorem state_change_of_unknown_entity entity_id old_state new_state value self :
  dict_get entity_id (states self) = None ->
  state new_state <> STATE_UNAVAILABLE ->
  state new_state <> STATE_UNKNOWN ->
  of_string (state new_state) = Some value ->
  _async_sensor_changed entity_id old_state (Some new_state) self
  = (Raise KeyError, self).
Proof.
  intros Hget Hu1 Hu2 Hv. rewrite _async_sensor_changed_unfold.
  apply String.eqb_neq in Hu1, Hu2. by rewrite Hu1, Hu2, Hv, Hget.
Qed.

Lemma state_change_of_unknown_entity_witness :
  dict_get "sensor.c" (states tracked_sources) = None
  /\ "10" <> STATE_UNAVAILABLE
  /\ "10" <> STATE_UNKNOWN
  /\ of_string "10" = Some (of_int 10)
  /\ _async_sensor_changed "sensor.c" None (event "10" (40 * second))
       tracked_sources
     = (Raise KeyError, tracked_sources).
Proof.
  do 4 (split; [done|]).
  by apply (state_change_of_unknown_entity "sensor.c" None
              {| state := "10"; last_updated := 40 * second |} (of_int 10)).
Defined.

(** X6.  Once the minimum and the maximum of the interval are NaN, as
    they are when the first sample of the interval is NaN, no state
    change moves them: both comparisons with NaN are false, so the
    extrema and their entity ids stay until the next tick, whatever
    values arrive. *)
Theorem nan_extrema_stay entity_id old_state new_state self :
  min_value self = Some S754_nan ->
  max_value self = Some S754_nan ->
  let self' := snd (_async_sensor_changed entity_id old_state new_state self) in
  min_value self' = Some S754_nan
  /\ max_value self' = Some S754_nan
  /\ min_entity_id self' = min_entity_id self
  /\ max_entity_id self' = max_entity_id self.
Proof.
  intros H1 H2 self'. subst self'. rewrite _async_sensor_changed_unfold.
  destruct new_state as [s|]; [|done].
  destruct (_ || _); [done|].
  destruct (of_string (state s)) as [value|]; [|done].
  destruct (dict_get entity_id (states self)) as [l|] eqn:Hget; [|done].
  cbn [snd]. unfold extrema_after. simpl. rewrite H1, H2.
  assert (flt value S754_nan = false) as -> by (by destruct value as [[]|[]| |[]]).
  assert (fgt value S754_nan = false) as -> by (by destruct value as [[]|[]| |[]]).
  destruct (_extremas self); simpl; by rewrite H1, H2.
Qed.

Lemma nan_extrema_stay_witness :
  min_value (snd (_async_sensor_changed "sensor.a" None (event "nan" 0)
                    silent_sources)) = Some S754_nan
  /\ max_value (snd (_async_sensor_changed "sensor.a" None (event "nan" 0)
                       silent_sources)) = Some S754_nan
  /\ max_value
       (snd (_async_sensor_changed "sensor.b" None (event "5" (10 * second))
               (snd (_async_sensor_changed "sensor.a" None (event "nan" 0)
                       silent_sources))))
     = Some S754_nan
  /\ max_entity_id
       (snd (_async_sensor_changed "sensor.b" None (event "5" (10 * second))
               (snd (_async_sensor_changed "sensor.a" None (event "nan" 0)
                       silent_sources))))
     = Some "sensor.a".
Proof.
  split; [done|]. split; [done|].
  destruct (nan_extrema_stay "sensor.b" None (event "5" (10 * second))
              (snd (_async_sensor_changed "sensor.a" None (event "nan" 0)
                      silent_sources)))
    as (_ & H2 & _ & H4); [done..|].
  split; [exact H2|]. etransitivity; [exact H4|reflexivity].
Defined.

(** *** What a tick publishes *)

(** X7.  A tick publishes at most one state, and only a change: either
    nothing is written and the native value stays, or exactly one state
    is written, the native value written differs ([!=]) from the one
    before the tick, and it is the native value the sensor has after
    the tick, with the attributes it has after the tick. *)
Theorem tick_publishes_changes_only now self :
  (ha_state (snd (update now self)) = ha_state self
   /\ _attr_native_value (snd (update now self)) = _attr_native_value self)
  \/ exists average,
       ha_state (snd (update now self))
       = ha_state self
           ++ [(average, _attr_extra_state_attributes (snd (update now self)))]
       /\ _attr_native_value (snd (update now self)) = average
       /\ py_ne (_attr_native_value self) average = true.
Proof.
  pose proof (update_loop_only_states now (states self) fzero false self) as Hf.
  set (self1 := snd (update_loop now (states self) fzero false self)) in *.
  destruct (update_ends now self) as [[e ->]|[->|(average & Hne & ->)]];
    fold self1; cbn [snd].
  - left. by rewrite Hf.
  - left. by rewrite Hf.
  - right. exists average. rewrite Hf. by repeat split.
Qed.

(** *** How a tick fails *)

Lemma existsb_nonempty_false (d : list (string * list sample)) :
  existsb nonempty (map snd d) = false -> Forall (fun p => snd p = []) d.
Proof.
  induction d as [|[e buf] d IH]; [by constructor|].
  cbn [map existsb snd]. intros [Hb Hd]%orb_false_elim.
  constructor; [|by apply IH]. by destruct buf.
Qed.

(** With a scan interval of zero the division of [calculate_tw] raises
    before the buffer is touched. *)
Lemma update_loop_zero_interval now items total sc self :
  String.eqb (_method self) METHOD_LINEAR = false ->
  scan_interval self = 0%Z ->
  existsb nonempty (map snd items) = true ->
  update_loop now items total sc self = (Raise ZeroDivisionError, self).
Proof.
  intros Hm Hz. revert total sc.
  induction items as [|[e buf] items IH]; intros total sc Hex; [done|].
  cbn [update_loop]. cbn [map existsb snd] in Hex.
  fold (nonempty buf). destruct (nonempty buf) eqn:Hb; [|by apply IH].
  unfold bind at 1. unfold get at 1. rewrite Hm.
  unfold bind at 1. unfold calculate_tw.
  destruct (last_nonempty buf) as [[t v] Hlast]; [by intros ->|].
  unfold bind at 1. unfold lift at 1. rewrite Hlast.
  unfold bind at 1. unfold lift at 1. rewrite tw_loop_integral.
  unfold bind at 1. unfold get at 1.
  unfold bind at 1. unfold lift at 1. by rewrite Hz.
Qed.

Lemma trunc_raises x e :
  trunc x = Raise e -> e = OverflowError \/ e = ValueError.
Proof. destruct x; simpl; intros H; try discriminate; injection H as <-; auto. Qed.

(** X8.  A tick can fail in three ways only.  When it raises, it is
    [NameError] under the linear method with some buffer not empty, or
    [ZeroDivisionError] under the time-weighted method with a scan
    interval of zero and some buffer not empty, or [OverflowError] or
    [ValueError] from [int(new_value)] with precision 0.  It never
    raises [KeyError], [IndexError] or [TypeError]. *)
Theorem tick_failures now self e :
  fst (update now self) = Raise e ->
  (e = NameError
   /\ _method self = METHOD_LINEAR
   /\ existsb nonempty (map snd (states self)) = true)
  \/ (e = ZeroDivisionError
      /\ _method self <> METHOD_LINEAR
      /\ scan_interval self = 0%Z
      /\ existsb nonempty (map snd (states self)) = true)
  \/ ((e = OverflowError \/ e = ValueError)
      /\ _method self <> METHOD_LINEAR
      /\ scan_interval self <> 0%Z
      /\ _precision self = 0%N).
Proof.
  intros He.
  destruct (existsb nonempty (map snd (states self))) eqn:Hex.
  2:{ rewrite update_idle in He by (by apply existsb_nonempty_false). done. }
  destruct (String.eqb (_method self) METHOD_LINEAR) eqn:Hm.
  { left. rewrite update_linear_raises in He by done.
    injection He as <-. by apply String.eqb_eq in Hm. }
  assert (_method self <> METHOD_LINEAR) as Hm' by (by apply String.eqb_neq).
  right. destruct (Z.eq_dec (scan_interval self) 0%Z) as [Hz|Hz].
  { left. rewrite update_unfold, update_loop_zero_interval in He by done.
    cbn [fst] in He. injection He as <-. done. }
  right. rewrite update_tw in He; [|done|by apply total_seconds_nonzero].
  rewrite Hex in He. unfold bind at 1 in He. unfold bind at 1 in He.
  rewrite combine_unfold in He.
  set (self1 := set_states _ self) in He.
  assert (exists c, (if String.eqb (_total_method self1) TOTAL_METHOD_AVERAGE
                     then truediv (tw_total now self)
                            (of_int (Z.of_nat (List.length (states self1))))
                     else Ret (tw_total now self)) = Ret c) as [c Hc].
  { destruct (String.eqb _ _); [|eauto].
    unfold truediv. rewrite of_int_nonzero; [eauto|].
    subst self1. cbn [states set_states].
    rewrite <- (length_map fst (seed_all _ _ _)), seed_all_keys, length_map by done.
    apply existsb_nonempty_length in Hex. lia. }
  rewrite Hc in He. rewrite update_state_unfold in He. unfold rounded in He.
  change (_precision self1) with (_precision self) in He.
  destruct (_precision self =? 0)%N eqn:Hp.
  - apply N.eqb_eq in Hp.
    destruct (trunc c) as [n|e'] eqn:Ht.
    + by destruct (py_ne _ _).
    + simpl in He. injection He as <-. apply trunc_raises in Ht. done.
  - by destruct (py_ne _ _).
Qed.

Lemma tick_failures_witness :
  fst (update (60 * second) linear_source) = Raise NameError
  /\ _method linear_source = METHOD_LINEAR
  /\ existsb nonempty (map snd (states linear_source)) = true.
Proof.
  assert (fst (update (60 * second) linear_source) = Raise NameError) as H
    by (vm_compute; reflexivity).
  split; [exact H|].
  destruct (tick_failures (60 * second) linear_source NameError H)
    as [(_ & H1 & H2)|[(H1 & _)|([H1|H1] & _)]]; [done|discriminate..].
Defined.

(** X9.  A tick that raises publishes nothing and resets nothing: the
    native value, the attributes, the published states and the extrema
    are as before the tick; only [self.states] can differ. *)
Theorem failed_tick_keeps_extrema now self e :
  fst (update now self) = Raise e ->
  ha_state (snd (update now self)) = ha_state self
  /\ _attr_native_value (snd (update now self)) = _attr_native_value self
  /\ _attr_extra_state_attributes (snd (update now self))
     = _attr_extra_state_attributes self
  /\ min_value (snd (update now self)) = min_value self
  /\ max_value (snd (update now self)) = max_value self
  /\ min_entity_id (snd (update now self)) = min_entity_id self
  /\ max_entity_id (snd (update now self)) = max_entity_id self.
Proof.
  intros He.
  pose proof (update_loop_only_states now (states self) fzero false self) as Hf.
  set (self1 := snd (update_loop now (states self) fzero false self)) in *.
  destruct (update_ends now self) as [[e' H]|[H|(average & _ & H)]];
    fold self1 in H; rewrite H in He |- *; [|done..].
  cbn [snd]. by rewrite Hf.
Qed.

Lemma failed_tick_keeps_extrema_witness :
  fst (update (60 * second)
         (snd (_async_sensor_changed "sensor.a" None (event "2" 0)
                 (init (60 * second) ["sensor.a"] 1 true
                    METHOD_LINEAR TOTAL_METHOD_SUM))))
  = Raise NameError
  /\ min_value
       (snd (update (60 * second)
               (snd (_async_sensor_changed "sensor.a" None (event "2" 0)
                       (init (60 * second) ["sensor.a"] 1 true
                          METHOD_LINEAR TOTAL_METHOD_SUM)))))
     = Some (of_int 2).
Proof.
  assert (fst (update (60 * second)
                 (snd (_async_sensor_changed "sensor.a" None (event "2" 0)
                         (init (60 * second) ["sensor.a"] 1 true
                            METHOD_LINEAR TOTAL_METHOD_SUM))))
          = Raise NameError) as H by (vm_compute; reflexivity).
  split; [exact H|].
  destruct (failed_tick_keeps_extrema _ _ _ H) as (_ & _ & _ & H1 & _).
  etransitivity; [exact H1|]. vm_compute. reflexivity.
Defined.

(** *** The buffers after a tick *)

Lemma dict_set_app_notin {V} k (v v0 : V) l1 l2 :
  ~ In k (map fst l1) ->
  dict_set k v (l1 ++ (k, v0) :: l2) = l1 ++ (k, v) :: l2.
Proof.
  induction l1 as [|[k1 v1] l1 IH]; simpl; intros H.
  - by rewrite String.eqb_refl.
  - destruct (String.eqb k k1) eqn:E.
    + apply String.eqb_eq in E. exfalso. apply H. by left.
    + rewrite IH; [done|]. intros ?. apply H. by right.
Qed.

Lemma seed_all_map now items : forall pre,
  NoDup (map fst (pre ++ items)) ->
  seed_all now items (map (seeded now) pre ++ items)
  = map (seeded now) (pre ++ items).
Proof.
  induction items as [|[e buf] items IH]; intros pre Hnd.
  - by rewrite !app_nil_r.
  - rewrite seed_all_cons.
    assert (~ In e (map fst (map (seeded now) pre))) as Hnotin.
    { rewrite map_map. cbn [seeded fst].
      rewrite map_app in Hnd. apply NoDup_app in Hnd as (_ & Hd & _).
      intros Hin. apply (Hd e); [by apply list_elem_of_In|]. simpl. by left. }
    specialize (IH (pre ++ [(e, buf)])).
    rewrite <- app_assoc in IH. cbn [app] in IH. specialize (IH Hnd).
    rewrite map_app in IH. cbn [map] in IH. rewrite <- app_assoc in IH.
    cbn [app] in IH. unfold seeded at 2 in IH. cbn [fst snd] in IH.
    destruct (nonempty buf).
    + rewrite dict_set_app_notin by done. exact IH.
    + exact IH.
Qed.

(** X10.  After a tick of the time-weighted method (scan interval not
    zero, keys distinct as in any dictionary) the buffers are those of
    before with every non-empty one replaced by its seed
    [(now, last value)]: empty buffers stay empty, and no buffer holds
    more than one sample. *)
Theorem buffers_after_tick now self :
  String.eqb (_method self) METHOD_LINEAR = false ->
  scan_interval self <> 0%Z ->
  NoDup (map fst (states self)) ->
  states (snd (update now self)) = map (seeded now) (states self)
  /\ Forall (fun p => (List.length (snd p) <= 1)%nat)
       (states (snd (update now self))).
Proof.
  intros Hm Hz Hnd.
  assert (states (snd (update now self)) = map (seeded now) (states self)) as H.
  { rewrite update_tw_states; [|done|by apply total_seconds_nonzero].
    apply (seed_all_map now (states self) []). exact Hnd. }
  split; [exact H|]. rewrite H. apply Forall_map, Forall_forall.
  intros [e buf] _. unfold seeded, seed. cbn [fst snd].
  destruct buf as [|s buf]; [simpl; lia|].
  cbn [nonempty List.length Nat.ltb Nat.leb].
  destruct (last (s :: buf)); simpl; lia.
Qed.

Lemma buffers_after_tick_witness :
  String.eqb (_method two_sources) METHOD_LINEAR = false
  /\ scan_interval two_sources <> 0%Z
  /\ NoDup (map fst (states two_sources))
  /\ states (snd (update (60 * second) two_sources))
     = [("sensor.a", [((60 * second)%Z, of_int 10)]); ("sensor.b", [])].
Proof.
  assert (NoDup (map fst (states two_sources))) as Hnd.
  { refine (bool_decide_unpack _ _). vm_compute. exact I. }
  split; [done|]. split; [done|]. split; [exact Hnd|].
  destruct (buffers_after_tick (60 * second) two_sources) as [H _];
    [done|done|exact Hnd|].
  etransitivity; [exact H|]. vm_compute. reflexivity.
Defined.

(** *** A source that goes silent *)

Lemma _async_sensor_changed_other entity_id other old_state new_state self :
  other <> entity_id ->
  dict_get other
    (states (snd (_async_sensor_changed entity_id old_state new_state self)))
  = dict_get other (states self).
Proof.
  intros Hne. rewrite _async_sensor_changed_unfold.
  destruct new_state as [s|]; [|done].
  destruct (_ || _); [done|].
  destruct (of_string (state s)) as [value|]; [|done].
  destruct (dict_get entity_id (states self)) as [l|] eqn:Hget; [|done].
  cbn [snd].
  destruct (extrema_after_keeps entity_id value
              (set_states (dict_set entity_id (l ++ [(last_updated s, value)])
                             (states self)) self)) as (_ & -> & _).
  cbn [states set_states]. by apply dict_get_set_ne.
Qed.

(** X11.  Under the time-weighted method a source never ages out: once
    its buffer holds a sample, whatever ticks and state changes of
    other entities follow, its buffer is the seed of the last tick with
    the last value the source delivered; every later tick goes on
    weighting that value. *)
Theorem silent_source_keeps_last_value calls : forall self entity_id samples t v,
  String.eqb (_method self) METHOD_LINEAR = false ->
  scan_interval self <> 0%Z ->
  NoDup (map fst (states self)) ->
  dict_get entity_id (states self) = Some samples ->
  last samples = Some (t, v) ->
  silent entity_id calls ->
  dict_get entity_id (states (after calls self))
  = Some (match last_tick calls with
          | Some now => [(now, v)]
          | None => samples
          end).
Proof.
  induction calls as [|c calls IH]; intros self e samples t v Hm Hz Hnd Hget Hlast Hs.
  - done.
  - apply Forall_cons in Hs as [Hc Hs].
    unfold after. cbn [fold_left]. fold (after calls (snd (perform c self))).
    destruct (perform_keeps c self) as [(C1 & _ & _ & C4 & _) Hk].
    assert (String.eqb (_method (snd (perform c self))) METHOD_LINEAR = false)
      as Hm' by (by rewrite C4).
    assert (scan_interval (snd (perform c self)) <> 0%Z) as Hz' by (by rewrite C1).
    assert (NoDup (map fst (states (snd (perform c self))))) as Hnd'
      by (by rewrite Hk).
    destruct c as [e' o n|now]; cbn [last_tick].
    + rewrite (IH _ e samples t v Hm' Hz' Hnd'); [|
        cbn [perform]; rewrite _async_sensor_changed_other by done; exact Hget
        |exact Hlast|exact Hs].
      by destruct (last_tick calls).
    + assert (dict_get e (states (snd (update now self))) = Some [(now, v)])
        as Hseed.
      { rewrite update_tw_states; [|done|by apply total_seconds_nonzero].
        rewrite seed_all_get, Hget by done. unfold nonempty, seed.
        rewrite Hlast. by destruct samples. }
      rewrite (IH _ e [(now, v)] now v Hm' Hz' Hnd' Hseed eq_refl Hs).
      by destruct (last_tick calls).
Qed.

Lemma silent_source_keeps_last_value_witness :
  String.eqb (_method one_source) METHOD_LINEAR = false
  /\ scan_interval one_source <> 0%Z
  /\ NoDup (map fst (states one_source))
  /\ dict_get "sensor.a" (states one_source) = Some two_samples
  /\ last two_samples = Some ((30 * second)%Z, of_int 20)
  /\ silent "sensor.a" [Tick (60 * second); Tick (120 * second)]
  /\ dict_get "sensor.a"
       (states (after [Tick (60 * second); Tick (120 * second)] one_source))
     = Some [((120 * second)%Z, of_int 20)].
Proof.
  assert (NoDup (map fst (states one_source))) as Hnd.
  { refine (bool_decide_unpack _ _). vm_compute. exact I. }
  assert (silent "sensor.a" [Tick (60 * second); Tick (120 * second)]) as Hs.
  { by repeat constructor. }
  split; [done|]. split; [done|]. split; [exact Hnd|]. split; [done|].
  split; [done|]. split; [exact Hs|].
  exact (silent_source_keeps_last_value _ one_source "sensor.a" two_samples
           _ _ eq_refl ltac:(done) Hnd eq_refl eq_refl Hs).
Defined.

(** *** [update_state] *)

Lemma feqb_refl x : is_nan x = false -> feqb x x = true.
Proof.
  unfold feqb, SFeqb.
  destruct x as [[]|[]| |[] m e]; simpl; try done; intros _;
    by rewrite Z.compare_refl, Pos.compare_cont_refl.
Qed.

(** X12.  Handing the same value to [update_state] twice publishes it
    at most once: after a call that returned, a second call with the
    same value changes nothing.  (The rounded value must not be NaN,
    which differs from itself.) *)
Theorem update_state_twice new_value self :
  (_precision self = 0%N
   \/ is_nan (round new_value (Z.of_N (_precision self))) = false) ->
  fst (update_state new_value self) = Ret tt ->
  update_state new_value (snd (update_state new_value self))
  = (Ret tt, snd (update_state new_value self)).
Proof.
  intros Hnan Hret.
  pose proof (update_state_unfold new_value self) as E.
  destruct (rounded self new_value) as [average|e] eqn:Hr;
    [|by rewrite E in Hret].
  assert (py_ne average average = false) as Hsame.
  { unfold rounded in Hr. destruct (_precision self =? 0)%N eqn:Hp.
    - destruct (trunc new_value); [|done]. injection Hr as <-.
      simpl. by rewrite Z.eqb_refl.
    - injection Hr as <-. simpl. rewrite feqb_refl; [done|].
      destruct Hnan as [H|H]; [|done]. apply N.eqb_neq in Hp. done. }
  destruct (py_ne (_attr_native_value self) average) eqn:Hne;
    rewrite E; cbn [snd]; rewrite update_state_unfold.
  - change (rounded (published average self) new_value)
      with (rounded self new_value).
    rewrite Hr.
    change (_attr_native_value (published average self)) with average.
    by rewrite Hsame.
  - by rewrite Hr, Hne.
Qed.

Lemma update_state_twice_witness :
  (_precision one_source = 0%N
   \/ is_nan (round (of_int 15) (Z.of_N (_precision one_source))) = false)
  /\ fst (update_state (of_int 15) one_source) = Ret tt
  /\ update_state (of_int 15) (snd (update_state (of_int 15) one_source))
     = (Ret tt, snd (update_state (of_int 15) one_source)).
Proof.
  assert (_precision one_source = 0%N
          \/ is_nan (round (of_int 15) (Z.of_N (_precision one_source))) = false)
    as H1 by (right; vm_compute; reflexivity).
  assert (fst (update_state (of_int 15) one_source) = Ret tt) as H2
    by (vm_compute; reflexivity).
  split; [exact H1|]. split; [exact H2|].
  exact (update_state_twice (of_int 15) one_source H1 H2).
Defined.

(** NaN is the exception: it is published again at every call. *)
Example nan_is_published_again :
  List.length
    (ha_state (snd (update_state S754_nan
                      (snd (update_state S754_nan one_source)))))
  = 2%nat.
Proof. vm_compute. reflexivity. Qed.

(** *** Attributes without extrema tracking *)

Lemma perform_without_extrema c self :
  _extremas self = false ->
  _attr_extra_state_attributes (snd (perform c self))
  = _attr_extra_state_attributes self
  /\ exists news,
       ha_state (snd (perform c self)) = ha_state self ++ news
       /\ Forall (fun w => snd w = _attr_extra_state_attributes self) news.
Proof.
  intros Hx. destruct c as [e o n|now]; cbn [perform].
  - rewrite _async_sensor_changed_unfold.
    assert (_attr_extra_state_attributes self = _attr_extra_state_attributes self
            /\ exists news, ha_state self = ha_state self ++ news
                 /\ Forall (fun w : pyval * gmap string pyval =>
                              snd w = _attr_extra_state_attributes self) news)
      as Hrefl.
    { split; [done|]. exists []. by rewrite app_nil_r. }
    destruct n as [s|]; [|exact Hrefl].
    destruct (_ || _); [exact Hrefl|].
    destruct (of_string (state s)) as [value|]; [|exact Hrefl].
    destruct (dict_get e (states self)) as [l|]; [|exact Hrefl].
    cbn [snd].
    destruct (extrema_after_keeps e value
                (set_states (dict_set e (l ++ [(last_updated s, value)])
                               (states self)) self)) as (_ & _ & _ & -> & ->).
    exact Hrefl.
  - pose proof (update_loop_only_states now (states self) fzero false self) as Hf.
    set (self1 := snd (update_loop now (states self) fzero false self)) in *.
    destruct (update_ends now self) as [[e ->]|[->|(average & _ & ->)]];
      fold self1; cbn [snd]; rewrite Hf.
    + split; [done|]. exists []. by rewrite app_nil_r.
    + split; [done|]. exists []. by rewrite app_nil_r.
    + cbn. rewrite Hx. split; [done|]. eexists. split; [done|].
      by repeat constructor.
Qed.

(** X13.  Without extrema tracking the attributes never change: after
    any state changes and ticks the sensor has the attributes it had,
    and every state published in between carries exactly those. *)
Theorem attributes_fixed_without_extrema calls : forall self,
  _extremas self = false ->
  _attr_extra_state_attributes (after calls self)
  = _attr_extra_state_attributes self
  /\ exists news,
       ha_state (after calls self) = ha_state self ++ news
       /\ Forall (fun w => snd w = _attr_extra_state_attributes self) news.
Proof.
  induction calls as [|c calls IH]; intros self Hx.
  - split; [done|]. exists []. by rewrite app_nil_r.
  - unfold after. cbn [fold_left]. fold (after calls (snd (perform c self))).
    destruct (perform_without_extrema c self Hx) as (Ha & n1 & Hh & Hf1).
    destruct (perform_keeps c self) as [(_ & _ & C3 & _) _].
    destruct (IH (snd (perform c self))) as (Ha' & n2 & Hh' & Hf2);
      [by rewrite C3|].
    split; [by rewrite Ha', Ha|].
    exists (n1 ++ n2). split.
    + by rewrite Hh', Hh, app_assoc.
    + apply Forall_app. split; [done|]. by rewrite Ha in Hf2.
Qed.

Lemma attributes_fixed_without_extrema_witness :
  _extremas two_sources = false
  /\ _attr_extra_state_attributes
       (after [Tick (60 * second); Tick (120 * second)] two_sources)
     = _attr_extra_state_attributes two_sources.
Proof.
  split; [done|].
  by destruct (attributes_fixed_without_extrema
                 [Tick (60 * second); Tick (120 * second)] two_sources eq_refl).
Defined.

(** *** Restoring the last state *)


(** The sentinels are restored as nothing; ["15.0"] is, and the tick
    that computes 15.0 then publishes nothing. *)
Example restore_then_tick :
  snd (async_added_to_hass (event "unknown" 0) one_source) = one_source
  /\ _attr_native_value (snd (async_added_to_hass (event "15.0" 0) one_source))
     = PFloat (of_int 15)
  /\ ha_state (snd (update (60 * second) one_source))
     = [(PFloat (of_int 15), with_extrema one_source)]
  /\ ha_state (snd (update (60 * second)
                      (snd (async_added_to_hass (event "15.0" 0) one_source))))
     = [].
Proof. vm_compute. done. Qed.

(** *** The linear method, in general *)

Lemma update_loop_skips_empty now pre items total sc self :
  Forall (fun p => snd p = []) pre ->
  update_loop now (pre ++ items) total sc self
  = update_loop now items total sc self.
Proof.
  induction 1 as [|[e buf] pre Hb _ IH]; [done|].
  simpl in Hb. subst buf. exact IH.
Qed.

(** X15.  Under the linear method a tick that finds a sample raises
    [NameError] and its only effect is a loss: the buffer of the first
    source that has samples is emptied.  The buffers of the sources
    after it are not visited and keep all their samples, nothing is
    published and the extrema are not reset. *)
Theorem linear_tick_discards_first_buffer now self pre entity_id samples post :
  _method self = METHOD_LINEAR ->
  states self = pre ++ (entity_id, samples) :: post ->
  Forall (fun p => snd p = []) pre ->
  ~ In entity_id (map fst pre) ->
  samples <> [] ->
  update now self
  = (Raise NameError, set_states (pre ++ (entity_id, []) :: post) self).
Proof.
  intros Hm Hs Hpre Hnotin Hne. rewrite update_unfold, Hs.
  rewrite update_loop_skips_empty by done. cbn [update_loop].
  destruct samples as [|s0 samples]; [done|]. cbn [List.length Nat.ltb Nat.leb].
  unfold bind at 1. unfold get at 1. rewrite Hm. cbn [String.eqb].
  change (String.eqb METHOD_LINEAR METHOD_LINEAR) with true. cbv iota.
  unfold bind at 1. rewrite calculate_linear_NameError; [|done|].
  - rewrite Hs, dict_set_app_notin by done. reflexivity.
  - rewrite Hs, map_app, in_app_iff. right. by left.
Qed.

Lemma linear_tick_discards_first_buffer_witness :
  _method linear_source = METHOD_LINEAR
  /\ states linear_source
     = [] ++ ("sensor.a", [(0%Z, of_int 2); ((1 * second)%Z, of_int 4)]) :: []
  /\ Forall (fun p : string * list sample => snd p = []) []
  /\ ~ In "sensor.a" (map fst ([] : list (string * list sample)))
  /\ [(0%Z, of_int 2); ((1 * second)%Z, of_int 4)] <> []
  /\ update (60 * second) linear_source
     = (Raise NameError,
        set_states ([] ++ ("sensor.a", []) :: []) linear_source).
Proof.
  split; [done|]. split; [vm_compute; reflexivity|]. split; [constructor|].
  split; [by intros []|]. split; [done|].
  apply (linear_tick_discards_first_buffer (60 * second) linear_source []
           "sensor.a" [(0%Z, of_int 2); ((1 * second)%Z, of_int 4)] []);
    [done|vm_compute; reflexivity|constructor|by intros []|done].
Defined.

(** With two sources the second one is never drained. *)
Example linear_second_source_keeps_growing :
  states
    (after [Changed "sensor.a" None (event "1" 0);
            Changed "sensor.b" None (event "2" 0);
            Tick (60 * second);
            Changed "sensor.a" None (event "3" (70 * second));
            Changed "sensor.b" None (event "4" (70 * second));
            Tick (120 * second)]
       (init (60 * second) ["sensor.a"; "sensor.b"] 1 false
          METHOD_LINEAR TOTAL_METHOD_SUM))
  = [("sensor.a", []);
     ("sensor.b", [(0%Z, of_int 2); ((70 * second)%Z, of_int 4)])].
Proof. vm_compute. reflexivity. Qed.

(** *** Witnesses *)

Lemma update_resets_extrema_witness :
  fst (update (60 * second) one_source) = Ret tt
  /\ min_value one_source = Some (of_int 10)
  /\ min_value (snd (update (60 * second) one_source)) = None
  /\ max_entity_id (snd (update (60 * second) one_source)) = None.
Proof.
  assert (fst (update (60 * second) one_source) = Ret tt) as H
    by (vm_compute; reflexivity).
  split; [exact H|]. split; [done|].
  destruct (update_resets_extrema (60 * second) one_source H) as (H1 & _ & _ & H4).
  by split.
Defined.

Lemma _async_sensor_changed_returns_witness :
  In "sensor.a" (map fst (states tracked_sources))
  /\ fst (_async_sensor_changed "sensor.a" None (event "inf" (40 * second))
            tracked_sources)
     = Ret tt.
Proof.
  assert (In "sensor.a" (map fst (states tracked_sources))) as H by (by left).
  split; [exact H|].
  exact (_async_sensor_changed_returns "sensor.a" None _ tracked_sources H).
Defined.

Lemma update_tw_returns_witness :
  String.eqb (_method one_source) METHOD_LINEAR = false
  /\ scan_interval one_source <> 0%Z
  /\ _precision one_source <> 0%N
  /\ fst (update (60 * second) one_source) = Ret tt.
Proof.
  split; [done|]. split; [done|]. split; [done|].
  by apply (update_tw_returns (60 * second) one_source).
Defined.

(** *** A time-weighted tick, end to end *)

(** X17.  Under the time-weighted method, with a scan interval that is
    not zero and some buffer not empty, a tick sums the contributions
    of the sources that have samples, divides the sum by the number of
    configured sources when the combine method is "average", rounds
    (or truncates, with precision 0), publishes the result if it
    differs from the native value, leaves every buffer that had samples
    with its seed, and resets the extrema. *)
Theorem time_weighted_tick now self average :
  String.eqb (_method self) METHOD_LINEAR = false ->
  scan_interval self <> 0%Z ->
  NoDup (map fst (states self)) ->
  existsb nonempty (map snd (states self)) = true ->
  rounded self
    (if String.eqb (_total_method self) TOTAL_METHOD_AVERAGE
     then fdiv (tw_total now self) (of_int (Z.of_nat (List.length (states self))))
     else tw_total now self)
  = Ret average ->
  update now self
  = (Ret tt,
     reset_extrema
       (if py_ne (_attr_native_value self) average
        then published average (set_states (map (seeded now) (states self)) self)
        else set_states (map (seeded now) (states self)) self)).
Proof.
  intros Hm Hz Hnd Hex Hr.
  rewrite update_tw; [|done|by apply total_seconds_nonzero].
  rewrite Hex.
  assert (seed_all now (states self) (states self)
          = map (seeded now) (states self)) as ->
    by (by apply (seed_all_map now (states self) [])).
  unfold bind at 1. unfold bind at 1. rewrite combine_unfold.
  cbn [_total_method states set_states].
  rewrite length_map.
  assert (is_zero (of_int (Z.of_nat (List.length (states self)))) = false) as Hlen.
  { apply of_int_nonzero. apply existsb_nonempty_length in Hex. lia. }
  unfold truediv. rewrite Hlen.
  set (combined := if String.eqb _ _ then _ else _) in Hr.
  assert ((if String.eqb (_total_method self) TOTAL_METHOD_AVERAGE
           then Ret (fdiv (tw_total now self)
                       (of_int (Z.of_nat (List.length (states self)))))
           else Ret (tw_total now self)) = Ret combined) as ->
    by (subst combined;
        destruct (String.eqb (_total_method self) TOTAL_METHOD_AVERAGE);
        reflexivity).
  rewrite update_state_unfold.
  change (rounded (set_states (map (seeded now) (states self)) self) combined)
    with (rounded self combined).
  rewrite Hr. cbn [_attr_native_value set_states].
  by destruct (py_ne (_attr_native_value self) average).
Qed.

Lemma time_weighted_tick_witness :
  String.eqb (_method two_sources) METHOD_LINEAR = false
  /\ scan_interval two_sources <> 0%Z
  /\ NoDup (map fst (states two_sources))
  /\ existsb nonempty (map snd (states two_sources)) = true
  /\ rounded two_sources
       (if String.eqb (_total_method two_sources) TOTAL_METHOD_AVERAGE
        then fdiv (tw_total (60 * second) two_sources)
               (of_int (Z.of_nat (List.length (states two_sources))))
        else tw_total (60 * second) two_sources)
     = Ret (PFloat (of_int 5))
  /\ update (60 * second) two_sources
     = (Ret tt,
        reset_extrema
          (if py_ne (_attr_native_value two_sources) (PFloat (of_int 5))
           then published (PFloat (of_int 5))
                  (set_states (map (seeded (60 * second)) (states two_sources))
                     two_sources)
           else set_states (map (seeded (60 * second)) (states two_sources))
                  two_sources)).
Proof.
  assert (NoDup (map fst (states two_sources))) as Hnd.
  { refine (bool_decide_unpack _ _). vm_compute. exact I. }
  assert (rounded two_sources
            (if String.eqb (_total_method two_sources) TOTAL_METHOD_AVERAGE
             then fdiv (tw_total (60 * second) two_sources)
                    (of_int (Z.of_nat (List.length (states two_sources))))
             else tw_total (60 * second) two_sources)
          = Ret (PFloat (of_int 5))) as Hr by (vm_compute; reflexivity).
  split; [done|]. split; [done|]. split; [exact Hnd|]. split; [done|].
  split; [exact Hr|].
  exact (time_weighted_tick (60 * second) two_sources _ eq_refl ltac:(done)
           Hnd eq_refl Hr).
Defined.
